(** * VideoStart (React Native): start sequence, timing ledger and camera format selection

    A shallow embedding of the TypeScript sources

      - [src/context/CameraContext.tsx]           ([findBestFormat],
                                                   [requestPermissions],
                                                   [getAvailableDevices])
      - [src/context/ConfigContext.tsx]           (the start sequence configuration)
      - [src/components/CameraView.tsx]           (frame processor, recording effect,
                                                   [handleRecordingFinished])
      - [src/components/ControlPanel.tsx]         ([canStart], [canStop])
      - [src/components/RecordingOverlay.tsx]     ([formatElapsedTime], [getFpsColor])
      - [src/components/StatusPanel.tsx]          ([formatElapsedTime])
      - [src/components/StartSequenceOverlay.tsx] ([startSequence], [randomDelay],
                                                   what the overlay displays)
      - [src/components/RaceTimerApp.tsx]         (the four handlers, [initializeApp])

    followed by the properties of the engine specification that can be
    stated over it, each proved, or refuted on a concrete run and proved
    in the form the code supports, and by further properties read off the
    code.

    Conventions.

    - Times are the milliseconds returned by [performance.now()], modelled
      as rationals ([Q]); the result of a division, which may be [Infinity]
      or [NaN], is a [JsNum].  The integer-valued fields of a camera format
      are modelled as [Z].
    - React state updates are atomic: a handler, the render it causes and
      the effects of that render form one step of the app.
    - [startSequence] is an [async] function.  It is modelled as the list
      of its statements; an invocation runs up to the next [await] (or the
      final [setTimeout]) and is resumed by the timer or the promise it waits
      for.  Timers never fire early.
    - What the environment does is an input of the step function: the
      clock advancing, taps on the three buttons, frames handed to the frame
      processor, timers firing, audio promises settling.  A tap reaches its
      handler when its button is rendered and not disabled; which view a
      touch lands on is a matter of layout and is not modelled.
    - The commands issued to the camera, the audio manager, the timers and
      the ledger are recorded, in order, in the field [calls] of the app.
    - The start of the app ([initializeApp]) is modelled on its own, as a
      function of what the camera library and the audio manager answer; the
      steps of the app begin after it.  The app stays on the camera view;
      the settings panel and the [isRecording] flag of the camera context
      are left out.
    - [services/TimingMarkers.ts] and [services/AudioManager.ts] are not
      among the sources.  The ledger is modelled from the specification;
      of the audio manager only the calls [initialize()] and
      [playAudio(name)] and the settling of the promises they return
      appear. *)

From Stdlib Require Import ZArith QArith Qabs Qround Lqa Lia Bool Ascii Sorted.
From stdpp Require Import base list strings pretty.

Local Open Scope Z_scope.

(** ** JavaScript values *)

(** The result of a floating-point division as far as the sources can
    observe it: a finite value, an infinity or [NaN]. *)
Inductive JsNum : Type :=
  | Num (q : Q)
  | PosInfinity
  | NegInfinity
  | NaN.

(** [a / b] on two finite numbers. *)
Definition js_div (a b : Q) : JsNum :=
  if Qeq_bool b 0 then
    (if Qeq_bool a 0 then NaN
     else if Qle_bool 0 a then PosInfinity else NegInfinity)
  else Num (a / b)%Q.

(** Truthiness of a number held in a [Z] field: everything but [0]. *)
Definition truthyZ (n : Z) : bool := negb (n =? 0).

(** [n || 0] on a number. *)
Definition or0 (n : Z) : Z := if truthyZ n then n else 0.

(** [Math.floor(x)] is [Qfloor x]; [Math.trunc(x)], the integer part: *)
Definition Qtruncate (x : Q) : Z :=
  if Qle_bool 0 x then Qfloor x else Qceiling x.

(** [a % b] on two finite numbers, [b] not 0: the remainder of the
    truncating division, which has the sign of [a]. *)
Definition js_rem (a b : Q) : Q := (a - b * inject_Z (Qtruncate (a / b)))%Q.

(** [n.toString()] on an integer: its decimal digits, after a [-] when it
    is negative (the form JavaScript uses below [10^21]). *)
Definition toString (n : Z) : string := pretty n.

(** [s.padStart(targetLength, pad)] for a [pad] of one character. *)
Definition padStart (targetLength : nat) (pad : Ascii.ascii) (s : string) : string :=
  String.append
    (String.string_of_list_ascii (replicate (targetLength - String.length s) pad)) s.

(** [a / b] where [a] may already be an infinity or [NaN]. *)
Definition js_div_num (a : JsNum) (b : Q) : JsNum :=
  match a with
  | Num x => js_div x b
  | PosInfinity => if Qeq_bool b 0 then PosInfinity
                   else if Qle_bool 0 b then PosInfinity else NegInfinity
  | NegInfinity => if Qeq_bool b 0 then NegInfinity
                   else if Qle_bool 0 b then NegInfinity else PosInfinity
  | NaN => NaN
  end.

(** [a >= q]: false when [a] is [NaN]. *)
Definition js_ge (a : JsNum) (q : Q) : bool :=
  match a with
  | Num x => Qle_bool q x
  | PosInfinity => true
  | NegInfinity | NaN => false
  end.

(** How a call that may throw, or a promise that is awaited, ends. *)
Inductive Outcome (A : Type) : Type :=
  | Returns (a : A)
  | Throws.

Arguments Returns {A} a.
Arguments Throws {A}.

(** ** [CameraContext.tsx] *)

Module CameraContext.

(** The fields of a [CameraFormat] that [findBestFormat] reads. *)
Record CameraFormat : Type := {
  videoWidth : Z;
  videoHeight : Z;
  maxFps : Z
}.

(** [device.formats] may be absent. *)
Record CameraDevice : Type := {
  formats : option (list CameraFormat)
}.

(** The predicate handed to [filter]. *)
Definition acceptable (targetFps : Z) (format : CameraFormat) : bool :=
  truthyZ (videoWidth format) && truthyZ (videoHeight format)
  && (targetFps <=? maxFps format).

(** The comparator handed to [sort]: larger pixel count first, then
    larger [maxFps]. *)
Definition compareFormats (a b : CameraFormat) : Z :=
  let aPixels := or0 (videoWidth a) * or0 (videoHeight a) in
  let bPixels := or0 (videoWidth b) * or0 (videoHeight b) in
  if negb (aPixels =? bPixels) then bPixels - aPixels
  else or0 (maxFps b) - or0 (maxFps a).

(** [Array.prototype.sort] is stable; a stable insertion sort gives the
    same array for a comparator that is a total preorder. *)
Fixpoint insertBy {A} (cmp : A -> A -> Z) (x : A) (l : list A) : list A :=
  match l with
  | [] => [x]
  | y :: l' => if cmp x y <=? 0 then x :: y :: l' else y :: insertBy cmp x l'
  end.

Definition sortBy {A} (cmp : A -> A -> Z) (l : list A) : list A :=
  foldr (insertBy cmp) [] l.

(** The predicate handed to [find]. *)
Definition ideal1080p240 (f : CameraFormat) : bool :=
  (videoWidth f =? 1920) && (videoHeight f =? 1080) && (240 <=? or0 (maxFps f)).

Definition findBestFormat (device : CameraDevice) (targetFps : Z)
  : option CameraFormat :=
  match formats device with
  | None => None
  | Some fs =>
      let sortedFormats :=
        sortBy compareFormats (List.filter (acceptable targetFps) fs) in
      match List.find ideal1080p240 sortedFormats with
      | Some f => Some f
      | None => head sortedFormats
      end
  end.

End CameraContext.

(** ** [CameraContext.tsx]: the provider *)

Module CameraProvider.

Import CameraContext.

(** A camera device as the app reads it: its [position], and the part of
    it that [findBestFormat] reads. *)
Record Device : Type := {
  position : string;
  asCameraDevice : CameraDevice
}.

(** The state hooks of [CameraProvider]. *)
Record State : Type := {
  device : option Device;
  format : option CameraFormat;
  isActive : bool;
  isRecording : bool;
  hasPermission : bool
}.

(** [useState(undefined)], [useState(undefined)], and three times
    [useState(false)]. *)
Definition initial : State :=
  {| device := None; format := None; isActive := false; isRecording := false;
     hasPermission := false |}.

Definition setDevice (d : option Device) (st : State) : State :=
  {| device := d; format := format st; isActive := isActive st;
     isRecording := isRecording st; hasPermission := hasPermission st |}.

Definition setFormat (f : option CameraFormat) (st : State) : State :=
  {| device := device st; format := f; isActive := isActive st;
     isRecording := isRecording st; hasPermission := hasPermission st |}.

Definition setIsActive (active : bool) (st : State) : State :=
  {| device := device st; format := format st; isActive := active;
     isRecording := isRecording st; hasPermission := hasPermission st |}.

Definition setHasPermission (permission : bool) (st : State) : State :=
  {| device := device st; format := format st; isActive := isActive st;
     isRecording := isRecording st; hasPermission := permission |}.

(** What the camera library answers during one start of the app. *)
Record Library : Type := {
  requestCameraPermission : Outcome string;
  requestMicrophonePermission : Outcome string;
  getAvailableCameraDevices : Outcome (list Device)
}.

(** The calls made to the library, the audio manager and [Alert]. *)
Inductive Call : Type :=
  | RequestCameraPermission       (* Camera.requestCameraPermission() *)
  | RequestMicrophonePermission   (* Camera.requestMicrophonePermission() *)
  | GetAvailableCameraDevices     (* Camera.getAvailableCameraDevices() *)
  | AudioInitialize               (* audioManager.initialize() *)
  | Alert (title : string).       (* Alert.alert(title, ...) *)

(** [requestPermissions]: the value returned, the state and the calls
    made.  A request that throws takes the function to its [catch]. *)
Definition requestPermissions (library : Library) (st : State)
  : bool * State * list Call :=
  match requestCameraPermission library with
  | Returns cameraPermission =>
      match requestMicrophonePermission library with
      | Returns microphonePermission =>
          let granted :=
            String.eqb cameraPermission "authorized"
            && String.eqb microphonePermission "authorized" in
          (granted, setHasPermission granted st,
           [RequestCameraPermission; RequestMicrophonePermission])
      | Throws =>
          (false, setHasPermission false st,
           [RequestCameraPermission; RequestMicrophonePermission])
      end
  | Throws => (false, setHasPermission false st, [RequestCameraPermission])
  end.

(** [getAvailableDevices] *)
Definition getAvailableDevices (library : Library) : list Device :=
  match getAvailableCameraDevices library with
  | Returns devices => devices
  | Throws => []
  end.

End CameraProvider.

Local Open Scope Q_scope.

(** ** Timing ledger: [services/TimingMarkers.ts] *)

Module TimingMarkers.

(** Modelled from the spec: the class [TimingMarkers]
    ([src/services/TimingMarkers.ts]) is used by [RaceTimerApp.tsx],
    [CameraView.tsx] and [StatusPanel.tsx] but its file is not among the
    sources.  The callers read the fields [startTime] and [finishTime]
    (absent until set).  *)
Record t : Type := {
  startTime : option Q;
  finishTime : option Q
}.

(** Modelled from the spec: [new TimingMarkers()], the ledger of a fresh
    app run, with neither time set. *)
Definition create : t := {| startTime := None; finishTime := None |}.

(** Modelled from the spec: [setStartTime] of the absent class.  The spec
    (section 4.5) makes it single-assignment: a call on a field that is
    already set is a no-op, never an overwrite. *)
Definition setStartTime (ts : Q) (m : t) : t :=
  match startTime m with
  | Some _ => m
  | None => {| startTime := Some ts; finishTime := finishTime m |}
  end.

(** Modelled from the spec: [setFinishTime] of the absent class,
    single-assignment like [setStartTime]. *)
Definition setFinishTime (ts : Q) (m : t) : t :=
  match finishTime m with
  | Some _ => m
  | None => {| startTime := startTime m; finishTime := Some ts |}
  end.

(** Modelled from the spec: [getDuration] of the absent class,
    [finishTimestamp - startTimestamp], undefined until both are set. *)
Definition getDuration (m : t) : option Q :=
  match startTime m, finishTime m with
  | Some s, Some f => Some (f - s)
  | _, _ => None
  end.

End TimingMarkers.

(** ** Calls made to the collaborators

    The commands the components issue to the camera, the audio manager,
    the timers and the ledger, and the clock reading that becomes the start
    time, in the order they are issued. *)
Inductive Event : Type :=
  | CameraStartRecording          (* camera.camera.current.startRecording({...}) *)
  | CameraStopRecording           (* camera.camera.current.stopRecording() *)
  | PlayAudio (name : string)     (* audioManager.playAudio(name) *)
  | SetTimeout (ms : Q)           (* setTimeout(_, ms) *)
  | StartTimeRead (t : Q)         (* const startTime = performance.now() *)
  | SetStartTime (t : Q)          (* timingMarkers.setStartTime(t) *)
  | SetFinishTime (t : Q)         (* timingMarkers.setFinishTime(t) *)
  | SetActualFps (fps : JsNum).   (* setActualFps(measuredFps) *)

(** Truthiness of a [number | null]: [null] and [0] are falsy. *)
Definition truthy (o : option Q) : bool :=
  match o with
  | Some x => negb (Qeq_bool x 0)
  | None => false
  end.

(** ** [CameraView.tsx] *)

Module CameraView.

(** The component's state hooks and refs. *)
Record State : Type := {
  frameCount : nat;
  actualFps : JsNum;
  frameTimestamps : list Q;
  recordingStartTime : option Q
}.

(** [useState(0)], [useState(0)], [useRef([])], [useRef(null)]. *)
Definition initial : State :=
  {| frameCount := 0; actualFps := Num 0;
     frameTimestamps := []; recordingStartTime := None |}.

(** [frameTimestamps.current.slice(-30)]. *)
Definition slice_last30 (l : list Q) : list Q := drop (length l - 30) l.

(** The body of [if (frameTimestamps.current.length >= 30)]: the rate over
    the 29 intervals spanned by the most recent 30 frames.  An index out
    of range reads [undefined], and arithmetic on it gives [NaN]. *)
Definition measuredFps (ts : list Q) : JsNum :=
  let recent30 := slice_last30 ts in
  match recent30 !! 29%nat, recent30 !! 0%nat with
  | Some last, Some first => let timeDiff := last - first in js_div 29000 timeDiff
  | _, _ => NaN
  end.

(** The frame processor, run for a frame that arrives at [currentTime].
    The test [isRecording && recordingStartTime.current] fails when the ref
    holds [null] (or [0]).  The closure handed to [runOnJS] is run with the
    frame: the time pushed is the one computed in the worklet.  The result
    is the new state and the calls made. *)
Definition frameProcessor (isRecording : bool) (currentTime : Q) (cv : State)
  : State * list Event :=
  match recordingStartTime cv with
  | Some t0 =>
      if isRecording && truthy (recordingStartTime cv) then
        let elapsedMs := currentTime - t0 in
        let ts := frameTimestamps cv ++ [elapsedMs] in
        if (30 <=? length ts)%nat then
          ({| frameCount := S (frameCount cv); actualFps := measuredFps ts;
              frameTimestamps := ts; recordingStartTime := recordingStartTime cv |},
           [SetActualFps (measuredFps ts)])
        else
          ({| frameCount := S (frameCount cv); actualFps := actualFps cv;
              frameTimestamps := ts; recordingStartTime := recordingStartTime cv |},
           [])
      else (cv, [])
  | None => (cv, [])
  end.

(** [startRecording]: nothing without a camera ref and a device. *)
Definition startRecording (hasCameraRef hasDevice : bool) : list Event :=
  if negb hasCameraRef || negb hasDevice then [] else [CameraStartRecording].

(** [stopRecording]: nothing without a camera ref. *)
Definition stopRecording (hasCameraRef : bool) : list Event :=
  if negb hasCameraRef then [] else [CameraStopRecording].

(** The effect that depends on [isRecording], run when that prop has
    changed; [now] is what [performance.now()] returns. *)
Definition recordingEffect (hasCameraRef hasDevice : bool)
    (isRecording : bool) (now : Q) (cv : State) : State * list Event :=
  if isRecording then
    ({| frameCount := 0; actualFps := Num 0;
        frameTimestamps := []; recordingStartTime := Some now |},
     startRecording hasCameraRef hasDevice)
  else if truthy (recordingStartTime cv) then
    ({| frameCount := frameCount cv; actualFps := actualFps cv;
        frameTimestamps := frameTimestamps cv; recordingStartTime := None |},
     stopRecording hasCameraRef)
  else (cv, []).

(** The prop [elapsedTime] handed to [RecordingOverlay]: the last frame
    timestamp, or 0 when there is none. *)
Definition elapsedTime (cv : State) : Q :=
  match last (frameTimestamps cv) with
  | Some e => e
  | None => 0
  end.

(** What the component renders. *)
Inductive Rendered : Type :=
  | CameraPermissionRequired   (* the text 'Camera permission required' *)
  | CameraNotAvailable         (* the text 'Camera not available' *)
  | CameraPreview.             (* the [Camera] element, which fills the camera ref *)

(** The two early returns of the component and its main [return]. *)
Definition rendered (camera : CameraProvider.State) : Rendered :=
  if negb (CameraProvider.hasPermission camera) then CameraPermissionRequired
  else if negb (bool_decide (is_Some (CameraProvider.device camera)))
          || negb (bool_decide (is_Some (CameraProvider.format camera)))
       then CameraNotAvailable
  else CameraPreview.

(** The object that [handleRecordingFinished] builds and logs. *)
Module TimingData.

Record t : Type := {
  videoPath : string;
  startTime : option Q;
  finishTime : option Q;
  duration : option Q;
  frameTimestamps : list Q;
  frameCount : nat;
  targetFps : Z;
  measuredFps : JsNum
}.

End TimingData.

(** [handleRecordingFinished], a closure of one render of the component:
    [frameCount], [actualFps] and [config] are the constants of that
    render ([atRender], [fps]), while [frameTimestamps.current] and the
    ledger are read when the camera calls the function ([cv],
    [timingMarkers]). *)
Definition handleRecordingFinished (atRender : State) (fps : Z)
    (videoPath : string) (timingMarkers : TimingMarkers.t) (cv : State)
  : TimingData.t :=
  {| TimingData.videoPath := videoPath;
     TimingData.startTime := TimingMarkers.startTime timingMarkers;
     TimingData.finishTime := TimingMarkers.finishTime timingMarkers;
     TimingData.duration := TimingMarkers.getDuration timingMarkers;
     TimingData.frameTimestamps := frameTimestamps cv;
     TimingData.frameCount := frameCount atRender;
     TimingData.targetFps := fps;
     TimingData.measuredFps := actualFps atRender |}.

End CameraView.

(** ** [RecordingOverlay.tsx] *)

Module RecordingOverlay.

(** [formatElapsedTime]: seconds and centiseconds. *)
Definition formatElapsedTime (ms : Q) : string :=
  let seconds := Qfloor (ms / 1000) in
  let milliseconds := Qfloor (js_rem ms 1000 / 10) in
  String.append (padStart 2 "0"%char (toString seconds))
    (String.append "."
       (String.append (padStart 2 "0"%char (toString milliseconds)) "s")).

(** [getFpsColor]: green, amber or red. *)
Definition getFpsColor (measuredFps : JsNum) (targetFps : Q) : string :=
  let fpsRatio := js_div_num measuredFps targetFps in
  if js_ge fpsRatio 0.9 then "#4CAF50"
  else if js_ge fpsRatio 0.7 then "#FFC107"
  else "#f44336".

End RecordingOverlay.

(** ** [StatusPanel.tsx] *)

Module StatusPanel.

(** [formatElapsedTime]: minutes, seconds and centiseconds. *)
Definition formatElapsedTime (ms : Q) : string :=
  let totalSeconds := Qfloor (ms / 1000) in
  let minutes := Qfloor (inject_Z totalSeconds / 60) in
  let seconds := Z.rem totalSeconds 60 in
  let milliseconds := Qfloor (js_rem ms 1000 / 10) in
  String.append (padStart 2 "0"%char (toString minutes))
    (String.append ":"
       (String.append (padStart 2 "0"%char (toString seconds))
          (String.append "." (padStart 2 "0"%char (toString milliseconds))))).

End StatusPanel.

(** ** [ConfigContext.tsx] *)

Record StartSequenceConfig : Type := {
  goToStartDuration : Q;
  inPositionMin : Q;
  inPositionMax : Q;
  setMin : Q;
  setMax : Q;
  audioEnabled : bool
}.

Definition defaultStartSequenceConfig : StartSequenceConfig :=
  {| goToStartDuration := 5; inPositionMin := 1.0; inPositionMax := 3.0;
     setMin := 1.0; setMax := 3.0; audioEnabled := true |}.

(** ** [StartSequenceOverlay.tsx] *)

Module SequencePhase.

Inductive t : Type :=
  | countdown | go_to_start | in_position | set | start | completed.

End SequencePhase.

Module StartSequenceOverlay.

(** [randomDelay(min, max)], with the result of [Math.random()] made an
    argument. *)
Definition randomDelay (random : Q) (min max : Q) : Q :=
  (random * (max - min) + min) * 1000.

(** The statements of [startSequence].  The function is straight-line
    code; it gives up control at every [await] and after registering the
    final timeout, whose callback is the code that follows it here. *)
Inductive Op : Type :=
  | setCountdown (i : Z)
  | animateScale
  | setPhase (p : SequencePhase.t)
  | setPhaseText (text : string)
  | awaitDelay (ms : Q)              (* await delay(ms) *)
  | awaitPlayAudio (name : string)   (* await audioManager.playAudio(name) *)
  | readStartTime                    (* const startTime = performance.now() *)
  | setTimeoutThen (ms : Q)          (* setTimeout(() => { ... }, ms) *)
  | onComplete.                      (* onComplete(startTime) *)

(** What a started [startSequence] is suspended on. *)
Inductive Wait : Type :=
  | WTimer (due : Q)          (* a timer that may fire once the clock reaches [due] *)
  | WAudio (name : string)    (* the promise returned by [playAudio(name)] *)
  | WEnd.                     (* nothing: the function returned or threw *)

(** One invocation of [startSequence]: the overlay's state hooks, the
    local [startTime], and where the invocation stands. *)
Record Sequence : Type := {
  phase : SequencePhase.t;
  countdown : Z;
  phaseText : string;
  startTime : option Q;
  waiting : Wait;
  rest : list Op
}.

Section Program.

Variable config : StartSequenceConfig.

(** [for (let i = 3; i >= 1; i--) { ... }] *)
Definition countdownLoop : list Op :=
  flat_map (fun i => [setCountdown i; animateScale; awaitDelay 1000]) [3; 2; 1]%Z.

(** [if (config.startSequenceConfig.audioEnabled) await audioManager.playAudio(name)] *)
Definition playIfEnabled (name : string) : list Op :=
  if audioEnabled config then [awaitPlayAudio name] else [].

(** The body of [startSequence]; [random1] and [random2] are the results of
    its two calls of [Math.random()]. *)
Definition startSequence (random1 random2 : Q) : list Op :=
  countdownLoop
  ++ [setPhase SequencePhase.go_to_start; setPhaseText "Go to the start"]
  ++ playIfEnabled "go_to_start"
  ++ [awaitDelay (goToStartDuration config * 1000)]
  ++ [setPhase SequencePhase.in_position; setPhaseText "In position"]
  ++ playIfEnabled "in_position"
  ++ [awaitDelay (randomDelay random1 (inPositionMin config) (inPositionMax config))]
  ++ [setPhase SequencePhase.set; setPhaseText "Set"]
  ++ playIfEnabled "set"
  ++ [awaitDelay (randomDelay random2 (setMin config) (setMax config))]
  ++ [setPhase SequencePhase.start; setPhaseText "GO!"; readStartTime]
  ++ playIfEnabled "start_beep"
  ++ [animateScale; setTimeoutThen 500; setPhase SequencePhase.completed; onComplete].

(** The overlay as mounted: [useState('countdown')], [useState(3)],
    [useState('Get Ready')], with [startSequence] about to run. *)
Definition mounted (random1 random2 : Q) : Sequence :=
  {| phase := SequencePhase.countdown; countdown := 3; phaseText := "Get Ready";
     startTime := None; waiting := WEnd; rest := startSequence random1 random2 |}.

End Program.

(** The waits, in milliseconds, that a piece of [startSequence] asks of
    the timers before it reads the start time. *)
Fixpoint waitBeforeStart (ops : list Op) : Q :=
  match ops with
  | [] => 0
  | readStartTime :: _ => 0
  | awaitDelay ms :: ops' => ms + waitBeforeStart ops'
  | setTimeoutThen ms :: ops' => ms + waitBeforeStart ops'
  | _ :: ops' => waitBeforeStart ops'
  end.

(** [getDisplayText]: the text in the middle of the overlay. *)
Definition getDisplayText (q : Sequence) : string :=
  match phase q with
  | SequencePhase.countdown => toString (countdown q)
  | _ => phaseText q
  end.

End StartSequenceOverlay.

(** ** [RaceTimerApp.tsx], with the components it renders *)

Module RaceTimerApp.

Import StartSequenceOverlay.

Inductive RecordingState : Type := idle | recording | finished.

Definition RecordingState_eqb (a b : RecordingState) : bool :=
  match a, b with
  | idle, idle | recording, recording | finished, finished => true
  | _, _ => false
  end.

(** The app on the camera view: the state hooks of [RaceTimerApp], the
    state of the [CameraView] it renders, every invocation of
    [startSequence] made so far (the last one belongs to the overlay on
    screen while [isSequenceActive]; an overlay that was removed leaves its
    invocation running), the clock, the number of [Math.random()] results
    used, and the calls issued so far, newest first. *)
Record App : Type := {
  now : Q;
  isSequenceActive : bool;
  recordingState : RecordingState;
  timingMarkers : TimingMarkers.t;
  cameraView : CameraView.State;
  sequences : list Sequence;
  randomCalls : nat;
  calls : list Event
}.

Definition initial : App :=
  {| now := 0; isSequenceActive := false; recordingState := idle;
     timingMarkers := TimingMarkers.create; cameraView := CameraView.initial;
     sequences := []; randomCalls := 0; calls := [] |}.

(** The calls in the order they were issued. *)
Definition trace (s : App) : list Event := rev (calls s).

(** Record updates. *)
Definition with_now (t : Q) (s : App) : App :=
  {| now := t; isSequenceActive := isSequenceActive s;
     recordingState := recordingState s; timingMarkers := timingMarkers s;
     cameraView := cameraView s; sequences := sequences s;
     randomCalls := randomCalls s; calls := calls s |}.

Definition with_flags (active : bool) (r : RecordingState) (s : App) : App :=
  {| now := now s; isSequenceActive := active;
     recordingState := r; timingMarkers := timingMarkers s;
     cameraView := cameraView s; sequences := sequences s;
     randomCalls := randomCalls s; calls := calls s |}.

Definition with_timingMarkers (m : TimingMarkers.t) (s : App) : App :=
  {| now := now s; isSequenceActive := isSequenceActive s;
     recordingState := recordingState s; timingMarkers := m;
     cameraView := cameraView s; sequences := sequences s;
     randomCalls := randomCalls s; calls := calls s |}.

Definition with_cameraView (cv : CameraView.State) (s : App) : App :=
  {| now := now s; isSequenceActive := isSequenceActive s;
     recordingState := recordingState s; timingMarkers := timingMarkers s;
     cameraView := cv; sequences := sequences s;
     randomCalls := randomCalls s; calls := calls s |}.

Definition with_sequences (qs : list Sequence) (s : App) : App :=
  {| now := now s; isSequenceActive := isSequenceActive s;
     recordingState := recordingState s; timingMarkers := timingMarkers s;
     cameraView := cameraView s; sequences := qs;
     randomCalls := randomCalls s; calls := calls s |}.

Definition with_randomCalls (n : nat) (s : App) : App :=
  {| now := now s; isSequenceActive := isSequenceActive s;
     recordingState := recordingState s; timingMarkers := timingMarkers s;
     cameraView := cameraView s; sequences := sequences s;
     randomCalls := n; calls := calls s |}.

(** [issued es s]: the calls [es] (oldest first) are issued after those
    already in [s]. *)
Definition issued (es : list Event) (s : App) : App :=
  {| now := now s; isSequenceActive := isSequenceActive s;
     recordingState := recordingState s; timingMarkers := timingMarkers s;
     cameraView := cameraView s; sequences := sequences s;
     randomCalls := randomCalls s; calls := rev es ++ calls s |}.

Section Run.

(** What one app run finds around it: the configuration, whether
    [camera.camera.current] and [camera.device] are there, and the results
    of the successive calls of [Math.random()]. *)
Variable config : StartSequenceConfig.
Variable hasCameraRef hasDevice : bool.
Variable random : nat -> Q.

(** The prop [isRecording] handed to [CameraView]. *)
Definition isRecording (s : App) : bool :=
  RecordingState_eqb (recordingState s) recording.

(** [handleSequenceComplete]: the prop [onComplete] of the overlay. *)
Definition handleSequenceComplete (startTime : Q) (s : App) : App :=
  issued [SetStartTime startTime]
    (with_timingMarkers (TimingMarkers.setStartTime startTime (timingMarkers s)) s).

(** Invocation [k] of [startSequence], in state [q], runs the statements
    [ops] up to the next point where it gives up control, and is stored
    back. *)
Fixpoint exec (k : nat) (q : Sequence) (ops : list Op) (s : App) : App :=
  match ops with
  | [] =>
      with_sequences
        (<[k := {| phase := phase q; countdown := countdown q;
                   phaseText := phaseText q; startTime := startTime q;
                   waiting := WEnd; rest := [] |}]> (sequences s)) s
  | op :: ops' =>
      match op with
      | setCountdown i =>
          exec k {| phase := phase q; countdown := i; phaseText := phaseText q;
                    startTime := startTime q; waiting := waiting q; rest := rest q |}
               ops' s
      | animateScale => exec k q ops' s
      | setPhase p =>
          exec k {| phase := p; countdown := countdown q; phaseText := phaseText q;
                    startTime := startTime q; waiting := waiting q; rest := rest q |}
               ops' s
      | setPhaseText text =>
          exec k {| phase := phase q; countdown := countdown q; phaseText := text;
                    startTime := startTime q; waiting := waiting q; rest := rest q |}
               ops' s
      | awaitDelay ms | setTimeoutThen ms =>
          with_sequences
            (<[k := {| phase := phase q; countdown := countdown q;
                       phaseText := phaseText q; startTime := startTime q;
                       waiting := WTimer (now s + ms); rest := ops' |}]> (sequences s))
            (issued [SetTimeout ms] s)
      | awaitPlayAudio name =>
          with_sequences
            (<[k := {| phase := phase q; countdown := countdown q;
                       phaseText := phaseText q; startTime := startTime q;
                       waiting := WAudio name; rest := ops' |}]> (sequences s))
            (issued [PlayAudio name] s)
      | readStartTime =>
          exec k {| phase := phase q; countdown := countdown q; phaseText := phaseText q;
                    startTime := Some (now s); waiting := waiting q; rest := rest q |}
               ops' (issued [StartTimeRead (now s)] s)
      | onComplete =>
          match startTime q with
          | Some t => exec k q ops' (handleSequenceComplete t s)
          | None => exec k q ops' s
          end
      end
  end.

(** The overlay is mounted: its effect calls [startSequence], which runs
    up to its first [await].  The two results of [Math.random()] that the
    invocation will use are taken from [random] here; the source draws them
    when it computes the two delays, which gives the same numbers to the
    same invocation unless two invocations draw in turn, and then another
    numbering of the draws. *)
Definition mountOverlay (s : App) : App :=
  let n := randomCalls s in
  let q := mounted config (random n) (random (S n)) in
  exec (length (sequences s)) q (rest q)
    (with_randomCalls (S (S n)) (with_sequences (sequences s ++ [q]) s)).

(** The effects of the render that follows a state change from [old] to
    [s]: the [CameraView] effect when [isRecording] changed, then the
    effect of a newly mounted overlay.  (An overlay that is removed has no
    cleanup: nothing happens to its [startSequence].) *)
Definition render (old s : App) : App :=
  let s1 :=
    if Bool.eqb (isRecording old) (isRecording s) then s
    else
      let '(cv, es) :=
        CameraView.recordingEffect hasCameraRef hasDevice
          (isRecording s) (now s) (cameraView s) in
      issued es (with_cameraView cv s) in
  if negb (isSequenceActive old) && isSequenceActive s1 then mountOverlay s1
  else s1.

(** [handleStartSequence].  The [catch] branch is left out: the two state
    setters in the [try] block do not throw. *)
Definition handleStartSequence (s : App) : App :=
  if isSequenceActive s || RecordingState_eqb (recordingState s) recording then s
  else render s (with_flags true recording s).

(** [handleStopRecording] *)
Definition handleStopRecording (s : App) : App :=
  if negb (RecordingState_eqb (recordingState s) recording) then s
  else
    let finishTime := now s in
    render s
      (issued [SetFinishTime finishTime]
         (with_timingMarkers (TimingMarkers.setFinishTime finishTime (timingMarkers s))
            (with_flags false finished s))).

(** [handleSequenceCancelled]: the prop [onCancel] of the overlay. *)
Definition handleSequenceCancelled (s : App) : App :=
  render s (with_flags false idle s).

(** [ControlPanel.tsx] *)
Definition canStart (s : App) : bool :=
  RecordingState_eqb (recordingState s) idle && negb (isSequenceActive s).

Definition canStop (s : App) : bool :=
  RecordingState_eqb (recordingState s) recording.

(** What can happen to the app.  A tap reaches its handler when the
    button is rendered and not disabled. *)
Inductive Input : Type :=
  | ClockReaches (t : Q)       (* time passes: the clock now shows at least [t] *)
  | TapStartSequence           (* the Start button of the control panel *)
  | TapStopRecording           (* the Stop button of the control panel *)
  | TapCancel                  (* the Cancel button of the overlay *)
  | FrameArrives               (* the camera hands a frame to the frame processor *)
  | TimerFires (k : nat)       (* the timer invocation [k] waits for fires *)
  | AudioResolves (k : nat)    (* the [playAudio] promise invocation [k] awaits resolves *)
  | AudioRejects (k : nat).    (* ... or is rejected: the invocation throws *)

(** The clock never runs backwards. *)
Definition later (now t : Q) : Q := if Qle_bool now t then t else now.

Definition timerFires (k : nat) (s : App) : App :=
  match sequences s !! k with
  | Some q =>
      match waiting q with
      | WTimer due => if Qle_bool due (now s) then exec k q (rest q) s else s
      | _ => s
      end
  | None => s
  end.

Definition audioResolves (k : nat) (s : App) : App :=
  match sequences s !! k with
  | Some q =>
      match waiting q with
      | WAudio _ => exec k q (rest q) s
      | _ => s
      end
  | None => s
  end.

Definition audioRejects (k : nat) (s : App) : App :=
  match sequences s !! k with
  | Some q =>
      match waiting q with
      | WAudio _ => exec k q [] s
      | _ => s
      end
  | None => s
  end.

Definition frameArrives (s : App) : App :=
  let '(cv, es) := CameraView.frameProcessor (isRecording s) (now s) (cameraView s) in
  issued es (with_cameraView cv s).

Definition step (s : App) (i : Input) : App :=
  match i with
  | ClockReaches t => with_now (later (now s) t) s
  | TapStartSequence => if canStart s then handleStartSequence s else s
  | TapStopRecording => if canStop s then handleStopRecording s else s
  | TapCancel => if isSequenceActive s then handleSequenceCancelled s else s
  | FrameArrives => frameArrives s
  | TimerFires k => timerFires k s
  | AudioResolves k => audioResolves k s
  | AudioRejects k => audioRejects k s
  end.

Definition run (s : App) (inputs : list Input) : App := foldl step s inputs.

End Run.

(** [ControlPanel.tsx]: the text on the Start button. *)
Definition startButtonText (s : App) : string :=
  if isSequenceActive s then "Starting..." else "Start Sequence".

(** [initializeApp], which the effect of the first render calls, on what
    the camera library answers and on how the promise of
    [audioManager.initialize()] ends; [fps] is [config.videoQuality.fps].
    The result is the state of the camera provider and the calls made. *)
Definition initializeApp (library : CameraProvider.Library)
    (audioInitialize : Outcome unit) (fps : Z) (camera : CameraProvider.State)
  : CameraProvider.State * list CameraProvider.Call :=
  let '(hasPermissions, camera, calls) :=
    CameraProvider.requestPermissions library camera in
  if negb hasPermissions then
    (camera, calls ++ [CameraProvider.Alert "Permissions Required"])
  else
    let devices := CameraProvider.getAvailableDevices library in
    let backCamera :=
      List.find (fun device => String.eqb (CameraProvider.position device) "back")
        devices in
    let camera :=
      match backCamera with
      | Some backCamera =>
          let camera := CameraProvider.setDevice (Some backCamera) camera in
          let bestFormat :=
            CameraContext.findBestFormat
              (CameraProvider.asCameraDevice backCamera) fps in
          let camera :=
            match bestFormat with
            | Some _ => CameraProvider.setFormat bestFormat camera
            | None => camera
            end in
          CameraProvider.setIsActive true camera
      | None => camera
      end in
    let calls :=
      calls ++ [CameraProvider.GetAvailableCameraDevices;
                CameraProvider.AudioInitialize] in
    match audioInitialize with
    | Returns _ => (camera, calls)
    | Throws => (camera, calls ++ [CameraProvider.Alert "Initialization Error"])
    end.

End RaceTimerApp.

(** * Properties *)

Import StartSequenceOverlay RaceTimerApp.

Section Facts.

Variable config : StartSequenceConfig.
Variable hasCameraRef hasDevice : bool.
Variable random : nat -> Q.

Local Abbreviation Step := (step config hasCameraRef hasDevice random).
Local Abbreviation Run := (run config hasCameraRef hasDevice random).

(** ** The vocabulary of the properties

    The predicates the properties are stated with, the scenarios they are
    tried on, and the invariants of the proofs. *)

(** *** Frame-rate measurement *)



(** *** How one run of [exec] changes the app *)

(** The calls issued, oldest first, when an invocation whose local
    [startTime] is [st] runs [ops] at clock [t] up to the next point where
    it gives up control. *)
Fixpoint emitted (t : Q) (st : option Q) (ops : list Op) : list Event :=
  match ops with
  | [] => []
  | op :: ops' =>
      match op with
      | awaitDelay ms | setTimeoutThen ms => [SetTimeout ms]
      | awaitPlayAudio name => [PlayAudio name]
      | readStartTime => StartTimeRead t :: emitted t (Some t) ops'
      | onComplete =>
          match st with
          | Some t' => SetStartTime t' :: emitted t st ops'
          | None => emitted t st ops'
          end
      | _ => emitted t st ops'
      end
  end.

(** The invocation as it is stored back after that run. *)
Fixpoint stored (t : Q) (q : Sequence) (ops : list Op) : Sequence :=
  match ops with
  | [] =>
      {| phase := phase q; countdown := countdown q; phaseText := phaseText q;
         startTime := startTime q; waiting := WEnd; rest := [] |}
  | op :: ops' =>
      match op with
      | setCountdown i =>
          stored t {| phase := phase q; countdown := i; phaseText := phaseText q;
                      startTime := startTime q; waiting := waiting q; rest := rest q |} ops'
      | animateScale => stored t q ops'
      | setPhase p =>
          stored t {| phase := p; countdown := countdown q; phaseText := phaseText q;
                      startTime := startTime q; waiting := waiting q; rest := rest q |} ops'
      | setPhaseText text =>
          stored t {| phase := phase q; countdown := countdown q; phaseText := text;
                      startTime := startTime q; waiting := waiting q; rest := rest q |} ops'
      | awaitDelay ms | setTimeoutThen ms =>
          {| phase := phase q; countdown := countdown q; phaseText := phaseText q;
             startTime := startTime q; waiting := WTimer (t + ms); rest := ops' |}
      | awaitPlayAudio name =>
          {| phase := phase q; countdown := countdown q; phaseText := phaseText q;
             startTime := startTime q; waiting := WAudio name; rest := ops' |}
      | readStartTime =>
          stored t {| phase := phase q; countdown := countdown q; phaseText := phaseText q;
                      startTime := Some t; waiting := waiting q; rest := rest q |} ops'
      | onComplete => stored t q ops'
      end
  end.

(** The ledger after the calls [es] were made on it. *)
Definition ledger_after (es : list Event) (m : TimingMarkers.t) : TimingMarkers.t :=
  fold_left
    (fun m e =>
       match e with
       | SetStartTime t => TimingMarkers.setStartTime t m
       | SetFinishTime t => TimingMarkers.setFinishTime t m
       | _ => m
       end) es m.

(** Invocation [k] is stored as [q], having issued [es]. *)
Definition committed (k : nat) (q : Sequence) (es : list Event) (s : App) : App :=
  {| now := now s; isSequenceActive := isSequenceActive s;
     recordingState := recordingState s;
     timingMarkers := ledger_after es (timingMarkers s);
     cameraView := cameraView s;
     sequences := <[k := q]> (sequences s);
     randomCalls := randomCalls s;
     calls := rev es ++ calls s |}.

(** *** Runs of the app *)

(** The overlay is on screen only while the state is ['recording']. *)
Definition overlay_only_while_recording (s : App) : Prop :=
  isSequenceActive s = true -> recordingState s = recording.

(** *** The frame timestamps *)


(** The frame timestamps are elapsed times: none is negative, and while a
    recording start time is held none exceeds the time elapsed since. *)
Definition frames_elapsed (s : App) : Prop :=
  Forall (fun e => 0 <= e) (CameraView.frameTimestamps (cameraView s))
  /\ forall t0, CameraView.recordingStartTime (cameraView s) = Some t0 ->
       t0 <= now s
       /\ Forall (fun e => e <= now s - t0) (CameraView.frameTimestamps (cameraView s)).


(** The draws that give the in-position wait 2.0 s and the set wait 1.5 s
    under the default configuration. *)
Definition scenario_random (n : nat) : Q :=
  match n with
  | O => 0.5
  | 1%nat => 0.25
  | _ => 0
  end.



(** *** The calls a step issues *)

(** Calls that come from the handlers and the [CameraView], not from an
    invocation of [startSequence]. *)
Definition from_handlers (e : Event) : Prop :=
  match e with
  | CameraStartRecording | CameraStopRecording | SetFinishTime _ | SetActualFps _ => True
  | _ => False
  end.

(** What a step does to the calls and to the invocations of
    [startSequence]: it leaves the invocations alone and issues calls of the
    handlers only (and no start of a recording); or it lets one invocation
    run on; or, on an accepted start request, it starts the recording and
    mounts an overlay, whose [startSequence] runs up to its first wait. *)
Inductive step_kind (s s' : App) : Prop :=
  | quiet_step (es : list Event) :
      calls s' = rev es ++ calls s ->
      sequences s' = sequences s ->
      Forall (fun e => from_handlers e /\ e <> CameraStartRecording) es ->
      step_kind s s'
  | resume_step (k : nat) (q : Sequence) (ops : list Op) :
      sequences s !! k = Some q ->
      ops = rest q \/ ops = [] ->
      calls s' = rev (emitted (now s) (startTime q) ops) ++ calls s ->
      sequences s' = <[k := stored (now s) q ops]> (sequences s) ->
      match waiting q with
      | WTimer due => due <= now s
      | WAudio _ => True
      | WEnd => False
      end ->
      step_kind s s'
  | mount_step (r1 r2 : Q) :
      recordingState s = idle ->
      calls s'
      = rev (CameraView.startRecording hasCameraRef hasDevice
             ++ emitted (now s) None (startSequence config r1 r2)) ++ calls s ->
      sequences s'
      = sequences s
        ++ [stored (now s) (mounted config r1 r2) (startSequence config r1 r2)] ->
      recordingState s' = recording ->
      step_kind s s'.

(** *** Orders among the calls *)











(** *** The start transition *)


Definition is_beep (e : Event) : bool :=
  match e with PlayAudio name => String.eqb name "start_beep" | _ => false end.


Definition is_stamp (e : Event) : bool :=
  match e with SetStartTime _ => true | _ => false end.


(** A whole session: a start request at clock 1000, every timer firing
    when due, every playback over at once. *)
Definition whole_session : list Input :=
  [ClockReaches 1000; TapStartSequence;
   ClockReaches 2000; TimerFires 0; ClockReaches 3000; TimerFires 0;
   ClockReaches 4000; TimerFires 0;
   AudioResolves 0; ClockReaches 9000; TimerFires 0;
   AudioResolves 0; ClockReaches 11000; TimerFires 0;
   AudioResolves 0; ClockReaches 12500; TimerFires 0;
   AudioResolves 0; ClockReaches 13000; TimerFires 0].

(** *** Before the countdown audio *)



(** *** How often the start fires *)

(** The number of calls in [l] that pass [test]. *)
Definition count (test : Event -> bool) (l : list Event) : nat :=
  length (List.filter test l).




(** Without a cancel, at most one start request is accepted. *)
Definition started_at_most_once (s : App) : Prop :=
  (length (sequences s) <= 1)%nat
  /\ (sequences s <> [] -> recordingState s <> idle).



(** *** Cancelling the sequence *)

(** A session that is cancelled in the phase ['in_position']: the start
    request at clock 1000, the countdown and the go-to-start phase, the
    in-position cue, and then, at clock 10000, while the in-position wait is
    running ... *)
Definition until_in_position : list Input :=
  [ClockReaches 1000; TapStartSequence;
   ClockReaches 2000; TimerFires 0; ClockReaches 3000; TimerFires 0;
   ClockReaches 4000; TimerFires 0;
   AudioResolves 0; ClockReaches 9000; TimerFires 0;
   AudioResolves 0; ClockReaches 10000].

(** ... and what the timers and the audio manager deliver after the
    cancel. *)
Definition after_the_cancel : list Input :=
  [ClockReaches 11000; TimerFires 0;
   AudioResolves 0; ClockReaches 12500; TimerFires 0;
   AudioResolves 0; ClockReaches 13000; TimerFires 0].

(** A session cancelled in the phase ['set'] at clock 11000 and a second
    start request at clock 11100; both invocations of [startSequence] are
    then served by the timers and the audio manager. *)
Definition cancel_then_start_again : list Input :=
  [ClockReaches 1000; TapStartSequence;
   ClockReaches 2000; TimerFires 0; ClockReaches 3000; TimerFires 0;
   ClockReaches 4000; TimerFires 0;
   AudioResolves 0; ClockReaches 9000; TimerFires 0;
   AudioResolves 0; ClockReaches 11000; TimerFires 0; AudioResolves 0;
   TapCancel; ClockReaches 11100; TapStartSequence;
   ClockReaches 12100; TimerFires 1;
   ClockReaches 12500; TimerFires 0; AudioResolves 0;
   ClockReaches 13000; TimerFires 0;
   ClockReaches 13100; TimerFires 1; ClockReaches 14100; TimerFires 1;
   AudioResolves 1; ClockReaches 19100; TimerFires 1;
   AudioResolves 1; ClockReaches 20100; TimerFires 1;
   AudioResolves 1; ClockReaches 21100; TimerFires 1;
   AudioResolves 1; ClockReaches 21600; TimerFires 1].

(** *** The waits before the start *)


(** [waited t0 total now q]: invocation [q], started at clock [t0] with
    timer waits of [total] ms ahead of its reading of the start time, has
    not got ahead of its timers. *)
Definition waited (t0 total now : Q) (q : Sequence) : Prop :=
  match startTime q with
  | Some t => t0 + total <= t /\ t <= now
  | None =>
      match waiting q with
      | WTimer due => t0 + total <= due + waitBeforeStart (rest q)
      | WAudio _ => t0 + total <= now + waitBeforeStart (rest q)
      | WEnd => True
      end
  end.

(** *** The camera view during a run *)


(** What the [CameraView] keeps from step to step: the frame count is the
    number of timestamps held, no rate is published before there are 30 of
    them, the timestamps are in order, and the start of the recording is
    held while the state is ['recording'] and not (or as 0) outside it. *)
Definition cameraView_kept (s : App) : Prop :=
  let cv := cameraView s in
  CameraView.frameCount cv = length (CameraView.frameTimestamps cv)
  /\ ((length (CameraView.frameTimestamps cv) < 30)%nat ->
      CameraView.actualFps cv = Num 0)
  /\ StronglySorted Qle (CameraView.frameTimestamps cv)
  /\ (recordingState s = recording ->
      exists t0, CameraView.recordingStartTime cv = Some t0)
  /\ (recordingState s <> recording ->
      truthy (CameraView.recordingStartTime cv) = false).

(** Once the clock has left 0, the start of the recording is held, as a
    positive clock value, exactly while the state is ['recording']. *)
Definition recording_start_held (s : App) : Prop :=
  0 < now s
  /\ if isRecording s
     then exists t0,
            CameraView.recordingStartTime (cameraView s) = Some t0
            /\ 0 < t0 /\ t0 <= now s
     else CameraView.recordingStartTime (cameraView s) = None.


(** *** The overlay during a run *)

(** The place of a phase in the sequence. *)
Definition phase_rank (p : SequencePhase.t) : nat :=
  match p with
  | SequencePhase.countdown => 0
  | SequencePhase.go_to_start => 1
  | SequencePhase.in_position => 2
  | SequencePhase.set => 3
  | SequencePhase.start => 4
  | SequencePhase.completed => 5
  end.

(** The statements still to run only set phases from place [r] on, in
    order. *)
Fixpoint ascending (r : nat) (ops : list Op) : Prop :=
  match ops with
  | [] => True
  | setPhase p :: ops' => (r <= phase_rank p)%nat /\ ascending (phase_rank p) ops'
  | _ :: ops' => ascending r ops'
  end.

(** Whether the invocation has read its start time. *)
Definition hasRead (q : Sequence) : bool :=
  match startTime q with
  | Some _ => true
  | None => false
  end.

(** [at_each_wait P phase countdown phaseText read ops]: with the state
    hooks and the start time as given, the statements [ops] take the
    invocation only through waits, and to an end, where [P] holds of
    them. *)
Fixpoint at_each_wait (P : SequencePhase.t -> Z -> string -> bool -> Prop)
    (ph : SequencePhase.t) (cd : Z) (txt : string) (read : bool) (ops : list Op)
  : Prop :=
  match ops with
  | [] => P ph cd txt read
  | op :: ops' =>
      match op with
      | setCountdown i => at_each_wait P ph i txt read ops'
      | setPhase p => at_each_wait P p cd txt read ops'
      | setPhaseText text => at_each_wait P ph cd text read ops'
      | readStartTime => at_each_wait P ph cd txt true ops'
      | awaitDelay _ | awaitPlayAudio _ | setTimeoutThen _ =>
          P ph cd txt read /\ at_each_wait P ph cd txt read ops'
      | animateScale | onComplete => at_each_wait P ph cd txt read ops'
      end
  end.

(** The state hooks fit the phase: a countdown of 3, 2 or 1 in the
    countdown, the text of the phase after it, and a start time read from
    the phase ['start'] on and not before. *)
Definition hooks_fit_phase (ph : SequencePhase.t) (cd : Z) (txt : string)
    (read : bool) : Prop :=
  match ph with
  | SequencePhase.countdown => (cd = 3 \/ cd = 2 \/ cd = 1)%Z /\ read = false
  | SequencePhase.go_to_start => txt = "Go to the start" /\ read = false
  | SequencePhase.in_position => txt = "In position" /\ read = false
  | SequencePhase.set => txt = "Set" /\ read = false
  | SequencePhase.start => txt = "GO!" /\ read = true
  | SequencePhase.completed => txt = "GO!" /\ read = true
  end.

(** Every invocation of [startSequence] waits with hooks that fit its
    phase, and will do so at each later wait. *)
Definition overlays_fit_phase (s : App) : Prop :=
  Forall (fun q =>
            hooks_fit_phase (phase q) (countdown q) (phaseText q) (hasRead q)
            /\ at_each_wait hooks_fit_phase
                 (phase q) (countdown q) (phaseText q) (hasRead q) (rest q))
    (sequences s).

(** The texts that the overlay shows in a phase. *)
Definition texts_of_phase (p : SequencePhase.t) : list string :=
  match p with
  | SequencePhase.countdown => ["3"; "2"; "1"]
  | SequencePhase.go_to_start => ["Go to the start"]
  | SequencePhase.in_position => ["In position"]
  | SequencePhase.set => ["Set"]
  | SequencePhase.start | SequencePhase.completed => ["GO!"]
  end.

(** *** The calls of a session *)

(** Whether a call comes from an invocation of [startSequence]. *)
Definition is_sequence_call (e : Event) : bool :=
  match e with
  | SetTimeout _ | PlayAudio _ | StartTimeRead _ | SetStartTime _ => true
  | _ => false
  end.

(** The calls that the statements [ops] make when they are run to their
    end, the start time being read at clock [t]. *)
Fixpoint all_calls (t : Q) (st : option Q) (ops : list Op) : list Event :=
  match ops with
  | [] => []
  | op :: ops' =>
      match op with
      | awaitDelay ms | setTimeoutThen ms => SetTimeout ms :: all_calls t st ops'
      | awaitPlayAudio name => PlayAudio name :: all_calls t st ops'
      | readStartTime => StartTimeRead t :: all_calls t (Some t) ops'
      | onComplete =>
          match st with
          | Some t' => SetStartTime t' :: all_calls t st ops'
          | None => all_calls t st ops'
          end
      | _ => all_calls t st ops'
      end
  end.

(** The calls of a whole session, in order: three countdown seconds, the
    three phases, each with its cue when audio is enabled and its wait, the
    reading of the clock, the beep, the last half second and the start time
    handed over. *)
Definition sessionCalls (r1 r2 t : Q) : list Event :=
  let cue name := if audioEnabled config then [PlayAudio name] else [] in
  [SetTimeout 1000; SetTimeout 1000; SetTimeout 1000]
  ++ cue "go_to_start" ++ [SetTimeout (goToStartDuration config * 1000)]
  ++ cue "in_position"
  ++ [SetTimeout (randomDelay r1 (inPositionMin config) (inPositionMax config))]
  ++ cue "set" ++ [SetTimeout (randomDelay r2 (setMin config) (setMax config))]
  ++ [StartTimeRead t] ++ cue "start_beep"
  ++ [SetTimeout 500; SetStartTime t].

(** The statements still to run read the start time at most once, and not
    at all when it has been read. *)
Fixpoint reads_once (read : bool) (ops : list Op) : Prop :=
  match ops with
  | [] => True
  | readStartTime :: ops' => read = false /\ reads_once true ops'
  | _ :: ops' => reads_once read ops'
  end.

(** The calls of the first session so far are the beginning of
    [sessionCalls], and the rest of it is what the invocation will still
    do. *)
Definition session_on_script (s : App) : Prop :=
  match sequences s with
  | [] => List.filter is_sequence_call (trace s) = []
  | q :: _ =>
      reads_once (hasRead q) (rest q)
      /\ forall t, (forall t', startTime q = Some t' -> t' = t) ->
           exists tail,
             List.filter is_sequence_call (trace s) ++ tail
             = sessionCalls (random 0) (random 1) t
             /\ (waiting q <> WEnd -> tail = all_calls t (startTime q) (rest q))
  end.

(** *** The timing data of a recording *)

(** The callback [onRecordingFinished] that the step [i] from [s] hands to
    the camera, when that step starts a recording: the
    [handleRecordingFinished] of the render whose effect starts it, a
    render with the state hooks of [s]; [fps] is [config.videoQuality.fps]
    at that render.  The camera calls it later with the path of the video,
    when the ledger and the refs have moved on. *)
Definition onRecordingFinished (fps : Z) (s : App) (i : Input)
  : option (string -> TimingMarkers.t -> CameraView.State -> CameraView.TimingData.t) :=
  if negb (isRecording s) && isRecording (Step s i) && hasCameraRef && hasDevice
  then Some (CameraView.handleRecordingFinished (cameraView s) fps)
  else None.

(** *** Sequences that run on *)

(** The inputs that serve the invocations of [startSequence]: time
    passing, timers firing, promises of cues settling. *)
Definition serves_sequences (i : Input) : Prop :=
  match i with
  | ClockReaches _ | TimerFires _ | AudioResolves _ | AudioRejects _ => True
  | _ => False
  end.

(** Two states of the app in which the invocations, the clock and the
    calls made by the invocations so far are the same. *)
Definition same_sequences (s1 s2 : App) : Prop :=
  sequences s1 = sequences s2
  /\ now s1 = now s2
  /\ List.filter is_sequence_call (trace s1) = List.filter is_sequence_call (trace s2).

(** *** Texts on the screen *)

(** The two decimal digits of [n], for [0 <= n < 100]. *)
Definition two_digits (n : Z) : string :=
  String (ascii_of_nat (48 + Z.to_nat (n / 10)))
    (String (ascii_of_nat (48 + Z.to_nat (n mod 10))) EmptyString).

(** [at_least a q]: the number [a] is [q] or more. *)
Definition at_least (a : JsNum) (q : Q) : Prop :=
  match a with
  | Num x => q <= x
  | PosInfinity => True
  | NegInfinity | NaN => False
  end.

(** ** Camera format selection *)

Section FindBestFormat.

Import CameraContext.

Lemma in_insertBy {A} (cmp : A -> A -> Z) (x y : A) (l : list A) :
  In y (insertBy cmp x l) <-> y = x \/ In y l.
Proof.
  induction l as [|z l IH]; simpl.
  - intuition congruence.
  - destruct (cmp x z <=? 0)%Z; simpl; rewrite ?IH; intuition congruence.
Qed.

Lemma in_sortBy {A} (cmp : A -> A -> Z) (y : A) (l : list A) :
  In y (sortBy cmp l) <-> In y l.
Proof.
  induction l as [|x l IH]; simpl; [tauto|].
  rewrite in_insertBy, IH. intuition congruence.
Qed.

Lemma acceptable_spec (t : Z) (f : CameraFormat) :
  acceptable t f = true <->
  videoWidth f <> 0%Z /\ videoHeight f <> 0%Z /\ (t <= maxFps f)%Z.
Proof.
  unfold acceptable, truthyZ.
  rewrite !andb_true_iff, !negb_true_iff, !Z.eqb_neq, Z.leb_le. tauto.
Qed.

Lemma findBestFormat_In (d : CameraDevice) (t : Z) (f : CameraFormat) :
  findBestFormat d t = Some f ->
  exists fs, formats d = Some fs /\ In f fs /\ acceptable t f = true.
Proof.
  unfold findBestFormat. destruct (formats d) as [fs|]; [|discriminate].
  intros H. exists fs. split; [reflexivity|].
  apply filter_In, (in_sortBy compareFormats).
  destruct (List.find _ _) as [g|] eqn:Hfind.
  - injection H as ->. apply find_some in Hfind. tauto.
  - destruct (sortBy _ _) as [|g l]; simpl in H; [discriminate|].
    injection H as ->. now left.
Qed.

Lemma findBestFormat_None (d : CameraDevice) (t : Z) (fs : list CameraFormat) :
  formats d = Some fs ->
  (findBestFormat d t = None <-> forall f, In f fs -> acceptable t f = false).
Proof.
  intros Hfs. unfold findBestFormat. rewrite Hfs. split.
  - intros H f Hin. destruct (acceptable t f) eqn:Hacc; [|reflexivity].
    assert (Hs : In f (sortBy compareFormats (List.filter (acceptable t) fs))).
    { apply in_sortBy, filter_In. auto. }
    destruct (List.find _ _); [discriminate|].
    destruct (sortBy _ _); [contradiction | discriminate].
  - intros H.
    assert (Hnil : List.filter (acceptable t) fs = []).
    { destruct (List.filter _ _) as [|g l] eqn:E; [reflexivity|].
      assert (Hg : In g (List.filter (acceptable t) fs)) by (rewrite E; now left).
      apply filter_In in Hg as [Hg1 Hg2]. rewrite (H g Hg1) in Hg2. discriminate. }
    rewrite Hnil. reflexivity.
Qed.

(** C10.  Whatever format [findBestFormat] returns has a nonzero
    [videoWidth], a nonzero [videoHeight] and a [maxFps] of at least the
    target; it returns [undefined] exactly when the device has no formats
    list or none of its formats meets these three conditions. *)
Theorem findBestFormat_meets_target (device : CameraDevice) (targetFps : Z) :
  (forall f, findBestFormat device targetFps = Some f ->
     videoWidth f <> 0%Z /\ videoHeight f <> 0%Z /\ (targetFps <= maxFps f)%Z)
  /\
  (findBestFormat device targetFps = None <->
     formats device = None \/
     exists fs, formats device = Some fs /\
       forall f, In f fs ->
         ~ (videoWidth f <> 0%Z /\ videoHeight f <> 0%Z /\ (targetFps <= maxFps f)%Z)).
Proof.
  split.
  - intros f H. apply findBestFormat_In in H as (fs & _ & _ & Hacc).
    now apply acceptable_spec.
  - destruct (formats device) as [fs|] eqn:Hfs.
    + rewrite (findBestFormat_None device targetFps fs Hfs). split.
      * intros H. right. exists fs. split; [reflexivity|].
        intros f Hin Hok. apply acceptable_spec in Hok.
        rewrite (H f Hin) in Hok. discriminate.
      * intros [Hnone | (fs' & Heq & H)]; [discriminate|].
        injection Heq as <-. intros f Hin.
        destruct (acceptable targetFps f) eqn:Hacc; [|reflexivity].
        exfalso. apply (H f Hin). now apply acceptable_spec.
    + split; [intros _; now left|]. intros _.
      unfold findBestFormat. now rewrite Hfs.
Qed.

(** The selection on a device that offers 720p at 240 fps, 1080p at 120
    fps, 1080p at 240 fps, 4K at 60 fps and a format without dimensions. *)
Example findBestFormat_iphone :
  let f w h r := {| videoWidth := w; videoHeight := h; maxFps := r |} in
  let device := {| formats := Some [f 1280 720 240; f 1920 1080 120;
                                    f 1920 1080 240; f 3840 2160 60;
                                    f 0 0 480]%Z |} in
  findBestFormat device 240 = Some (f 1920 1080 240)%Z
  /\ findBestFormat device 120 = Some (f 1920 1080 240)%Z
  /\ findBestFormat device 30 = Some (f 1920 1080 240)%Z
  /\ findBestFormat device 300 = None.
Proof. repeat split; reflexivity. Qed.

Local Open Scope Z_scope.

Lemma or0_id (n : Z) : or0 n = n.
Proof. unfold or0, truthyZ. destruct (Z.eqb_spec n 0); cbn; congruence. Qed.

(** [compareFormats a b <= 0], which lets [sort] leave [a] before [b]:
    [a] has more pixels, or as many and a [maxFps] at least as large. *)
Lemma compareFormats_le (a b : CameraFormat) :
  compareFormats a b <= 0 <->
  videoWidth b * videoHeight b < videoWidth a * videoHeight a
  \/ (videoWidth a * videoHeight a = videoWidth b * videoHeight b
      /\ maxFps b <= maxFps a).
Proof.
  unfold compareFormats. rewrite !or0_id.
  destruct (Z.eqb_spec (videoWidth a * videoHeight a) (videoWidth b * videoHeight b));
    cbn [negb]; lia.
Qed.

Lemma insertBy_sorted {A} (cmp : A -> A -> Z) (x : A) (l : list A) :
  (forall a b, 0 < cmp a b -> cmp b a <= 0) ->
  (forall a b c, cmp a b <= 0 -> cmp b c <= 0 -> cmp a c <= 0) ->
  StronglySorted (fun a b => cmp a b <= 0) l ->
  StronglySorted (fun a b => cmp a b <= 0) (insertBy cmp x l).
Proof.
  intros Htotal Htrans. induction 1 as [|y l Hl IH Hy]; cbn.
  - repeat constructor.
  - destruct (Z.leb_spec (cmp x y) 0) as [Hxy | Hxy].
    + constructor; [now constructor|].
      constructor; [exact Hxy|].
      eapply List.Forall_impl; [|exact Hy]. intros z Hz. now apply (Htrans x y z).
    + constructor; [exact IH|].
      apply List.Forall_forall. intros z Hz. apply in_insertBy in Hz as [-> | Hz].
      * now apply Htotal.
      * revert z Hz. now apply List.Forall_forall.
Qed.

Lemma sortBy_sorted {A} (cmp : A -> A -> Z) (l : list A) :
  (forall a b, 0 < cmp a b -> cmp b a <= 0) ->
  (forall a b c, cmp a b <= 0 -> cmp b c <= 0 -> cmp a c <= 0) ->
  StronglySorted (fun a b => cmp a b <= 0) (sortBy cmp l).
Proof.
  intros Htotal Htrans. induction l as [|x l IH]; cbn; [constructor|].
  now apply insertBy_sorted.
Qed.

Lemma sortedFormats_sorted (l : list CameraFormat) :
  StronglySorted (fun a b => compareFormats a b <= 0) (sortBy compareFormats l).
Proof.
  apply sortBy_sorted.
  - intros a b H. apply compareFormats_le.
    assert (H' : ~ compareFormats a b <= 0) by lia.
    rewrite compareFormats_le in H'. lia.
  - intros a b c. rewrite !compareFormats_le. nia.
Qed.

(** In a sorted list, the first element that passes a test comes before
    every other that passes it. *)
Lemma find_sorted {A} (R : A -> A -> Prop) (p : A -> bool) (l : list A) (g : A) :
  (forall a, R a a) ->
  StronglySorted R l ->
  List.find p l = Some g ->
  forall f, In f l -> p f = true -> R g f.
Proof.
  intros Hrefl. induction 1 as [|y l Hl IH Hy]; cbn; [discriminate|].
  destruct (p y) eqn:Hpy.
  - intros [= ->] f [-> | Hf] _; [apply Hrefl|].
    revert f Hf. now apply List.Forall_forall.
  - intros Hfind f [-> | Hf] Hpf; [congruence|]. now apply IH.
Qed.

(** X1.  A format of 1920 x 1080 with a [maxFps] of 240 or more that meets the
    target is preferred to every other format, larger ones included: when
    the device has such a format [f], [findBestFormat] returns a format of
    1920 x 1080 whose [maxFps] is at least that of [f]. *)
Theorem findBestFormat_prefers_1080p_240
    (device : CameraDevice) (targetFps : Z) (fs : list CameraFormat) (f : CameraFormat) :
  formats device = Some fs ->
  In f fs ->
  videoWidth f = 1920 -> videoHeight f = 1080 ->
  240 <= maxFps f -> targetFps <= maxFps f ->
  exists g,
    findBestFormat device targetFps = Some g
    /\ In g fs
    /\ videoWidth g = 1920 /\ videoHeight g = 1080
    /\ maxFps f <= maxFps g.
Proof.
  intros Hfs Hin Hw Hh H240 Ht.
  assert (Hacc : acceptable targetFps f = true).
  { apply acceptable_spec. lia. }
  assert (Hideal : ideal1080p240 f = true).
  { unfold ideal1080p240. rewrite or0_id, Hw, Hh. cbn. now apply Z.leb_le. }
  assert (Hs : In f (sortBy compareFormats (List.filter (acceptable targetFps) fs))).
  { apply in_sortBy, filter_In. auto. }
  unfold findBestFormat. rewrite Hfs. cbv zeta.
  destruct (List.find ideal1080p240 _) as [g|] eqn:Hfind.
  - exists g. split; [reflexivity|].
    pose proof (find_sorted (fun a b => compareFormats a b <= 0) _ _ g
                  ltac:(intros a; apply compareFormats_le; lia)
                  (sortedFormats_sorted _) Hfind f Hs Hideal) as Hle.
    apply find_some in Hfind as [Hg Hgi].
    apply (in_sortBy compareFormats), filter_In in Hg as [Hg _].
    unfold ideal1080p240 in Hgi. rewrite or0_id in Hgi.
    apply andb_true_iff in Hgi as [Hgi _]. apply andb_true_iff in Hgi as [Hgw Hgh].
    apply Z.eqb_eq in Hgw, Hgh.
    apply compareFormats_le in Hle. rewrite Hw, Hh, Hgw, Hgh in Hle.
    repeat split; try assumption. lia.
  - exfalso. eapply find_none in Hfind; [|exact Hs]. congruence.
Qed.


Local Close Scope Z_scope.

End FindBestFormat.

(** ** Starting the app *)

Section Startup.

Import CameraContext CameraProvider.

(** Permission is granted exactly when both requests answer
    ['authorized']. *)
Lemma requestPermissions_granted (library : Library) (st : State) :
  (requestPermissions library st).1.1 = true <->
  requestCameraPermission library = Returns "authorized"
  /\ requestMicrophonePermission library = Returns "authorized".
Proof.
  unfold requestPermissions.
  destruct (requestCameraPermission library) as [c|];
    [destruct (requestMicrophonePermission library) as [m|]|]; cbn.
  - rewrite andb_true_iff, !String.eqb_eq. split.
    + intros [-> ->]. auto.
    + intros [[= ->] [= ->]]. auto.
  - split; [discriminate | intros [_ [=]]].
  - split; [discriminate | intros [[=] _]].
Qed.

(** X3.  [requestPermissions] returns what it stores as [hasPermission], and
    that is [true] exactly when both requests answer ['authorized']; the
    microphone is asked for whenever the camera request answers, whatever
    the answer, and not when it throws; device, format and activity are
    left alone. *)
Theorem requestPermissions_both_authorized (library : Library) (st : State) :
  let result := requestPermissions library st in
  let granted := result.1.1 in
  let calls := result.2 in
  hasPermission result.1.2 = granted
  /\ (granted = true <->
      requestCameraPermission library = Returns "authorized"
      /\ requestMicrophonePermission library = Returns "authorized")
  /\ (In RequestMicrophonePermission calls <->
      exists answer, requestCameraPermission library = Returns answer)
  /\ device result.1.2 = device st
  /\ format result.1.2 = format st
  /\ isActive result.1.2 = isActive st.
Proof.
  unfold requestPermissions.
  destruct (requestCameraPermission library) as [c|];
    [destruct (requestMicrophonePermission library) as [m|]|]; cbn.
  - split; [reflexivity|]. split.
    + rewrite andb_true_iff, !String.eqb_eq. split.
      * intros [-> ->]. auto.
      * intros [[= ->] [= ->]]. auto.
    + split; [|auto]. split; [eauto | tauto].
  - split; [reflexivity|]. split; [split; [discriminate | intros [_ [=]]]|].
    split; [|auto]. split; [eauto | tauto].
  - split; [reflexivity|]. split; [split; [discriminate | intros [[=] _]]|].
    split; [|auto]. split; [intros [[=] | []] | intros [? [=]]].
Qed.

(** [initializeApp] when permission is granted ... *)
Lemma initializeApp_granted (library : Library) (audio : Outcome unit) (fps : Z)
    (camera : State) :
  (requestPermissions library camera).1.1 = true ->
  initializeApp library audio fps camera =
  (let camera := setHasPermission true camera in
   match List.find (fun device => String.eqb (position device) "back")
           (getAvailableDevices library) with
   | Some backCamera =>
       setIsActive true
         (match findBestFormat (asCameraDevice backCamera) fps with
          | Some f => setFormat (Some f) (setDevice (Some backCamera) camera)
          | None => setDevice (Some backCamera) camera
          end)
   | None => camera
   end,
   [RequestCameraPermission; RequestMicrophonePermission;
    GetAvailableCameraDevices; AudioInitialize]
   ++ match audio with
      | Returns _ => []
      | Throws => [Alert "Initialization Error"]
      end).
Proof.
  unfold initializeApp, requestPermissions.
  destruct (requestCameraPermission library) as [c|];
    [destruct (requestMicrophonePermission library) as [m|]|]; cbn [fst snd];
    try discriminate.
  intros ->. cbn [negb].
  destruct (List.find _ _) as [b|]; [destruct (findBestFormat _ _)|];
    destruct audio; reflexivity.
Qed.

(** ... and when it is not. *)
Lemma initializeApp_denied (library : Library) (audio : Outcome unit) (fps : Z)
    (camera : State) :
  (requestPermissions library camera).1.1 = false ->
  initializeApp library audio fps camera =
  (setHasPermission false camera,
   (requestPermissions library camera).2 ++ [Alert "Permissions Required"]).
Proof.
  unfold initializeApp, requestPermissions.
  destruct (requestCameraPermission library) as [c|];
    [destruct (requestMicrophonePermission library) as [m|]|]; cbn [fst snd];
    try reflexivity.
  intros ->. reflexivity.
Qed.

(** X4.  After [initializeApp] on a fresh provider the [CameraView] renders the
    camera, rather than one of its two messages, exactly when both
    permissions are ['authorized'] and the first device in position
    ['back'] has a format with nonzero width and height and a [maxFps] of at
    least the configured frame rate; whether the audio manager could be
    initialised plays no part. *)
Theorem initializeApp_camera_preview (library : Library) (audio : Outcome unit) (fps : Z) :
  let camera := (initializeApp library audio fps CameraProvider.initial).1 in
  CameraView.rendered camera = CameraView.CameraPreview
  <-> requestCameraPermission library = Returns "authorized"
      /\ requestMicrophonePermission library = Returns "authorized"
      /\ exists devices backCamera fs f,
           getAvailableCameraDevices library = Returns devices
           /\ List.find (fun device => String.eqb (position device) "back") devices
              = Some backCamera
           /\ formats (asCameraDevice backCamera) = Some fs
           /\ In f fs
           /\ videoWidth f <> 0%Z /\ videoHeight f <> 0%Z /\ (fps <= maxFps f)%Z.
Proof.
  cbv zeta.
  pose proof (requestPermissions_granted library CameraProvider.initial) as Hgranted.
  destruct (requestPermissions library CameraProvider.initial).1.1 eqn:Hg.
  - rewrite (initializeApp_granted _ _ _ _ Hg). cbn [fst].
    destruct (proj1 Hgranted eq_refl) as [HA HB].
    enough (Hiff : CameraView.rendered
                     (match List.find (fun device => String.eqb (position device) "back")
                              (getAvailableDevices library) with
                      | Some backCamera =>
                          setIsActive true
                            (match findBestFormat (asCameraDevice backCamera) fps with
                             | Some f =>
                                 setFormat (Some f)
                                   (setDevice (Some backCamera)
                                      (setHasPermission true CameraProvider.initial))
                             | None =>
                                 setDevice (Some backCamera)
                                   (setHasPermission true CameraProvider.initial)
                             end)
                      | None => setHasPermission true CameraProvider.initial
                      end) = CameraView.CameraPreview
                   <-> exists devices backCamera fs f,
                         getAvailableCameraDevices library = Returns devices
                         /\ List.find (fun device => String.eqb (position device) "back")
                              devices = Some backCamera
                         /\ formats (asCameraDevice backCamera) = Some fs
                         /\ In f fs
                         /\ videoWidth f <> 0%Z /\ videoHeight f <> 0%Z
                         /\ (fps <= maxFps f)%Z).
    { split; [intros H; split; [exact HA | split; [exact HB | apply Hiff, H]]
             | intros (_ & _ & H); apply Hiff, H]. }
    unfold getAvailableDevices.
    destruct (getAvailableCameraDevices library) as [devices|].
    + destruct (List.find _ devices) as [b|] eqn:Hfind.
      * destruct (findBestFormat (asCameraDevice b) fps) as [f|] eqn:Hbest.
        -- split; [intros _ | reflexivity].
           apply findBestFormat_In in Hbest as (fs & Hfs & Hin & Hacc).
           apply acceptable_spec in Hacc.
           exists devices, b, fs, f. tauto.
        -- split; [discriminate|].
           intros (devices' & b' & fs & f & [= <-] & Hb & Hfs & Hin & Hacc).
           rewrite Hfind in Hb. injection Hb as <-.
           pose proof (proj1 (findBestFormat_None _ fps _ Hfs) Hbest f Hin).
           assert (acceptable fps f = true) by (apply acceptable_spec; exact Hacc).
           congruence.
      * split; [discriminate|].
        intros (devices' & b' & fs & f & [= <-] & Hb & _). congruence.
    + split; [discriminate|].
      intros (devices' & b' & fs & f & [=] & _).
  - rewrite (initializeApp_denied _ _ _ _ Hg). cbn.
    split; [discriminate|]. intros (H1 & H2 & _).
    assert (false = true) by (apply Hgranted; auto). discriminate.
Qed.

(** In a list of calls that ends with its only alert, nothing follows the
    alert. *)
Lemma alert_is_last (before : list Call) (a : Call) (title : string)
    (l1 l2 : list Call) :
  (forall t, ~ In (Alert t) before) ->
  before ++ [a] = l1 ++ Alert title :: l2 -> l2 = [].
Proof.
  intros Hnone H.
  destruct l2 as [|x l2] using rev_ind; [reflexivity|]. exfalso.
  change (l1 ++ Alert title :: l2 ++ [x]) with (l1 ++ (Alert title :: l2) ++ [x]) in H.
  rewrite app_assoc in H. apply app_inj_tail in H as [-> _].
  apply (Hnone title), in_elt.
Qed.

(** X5.  The alerts of [initializeApp].  'Permissions Required' is shown exactly
    when permission is not granted, 'Initialization Error' exactly when it
    is granted and the audio manager fails to initialise; an alert is the
    last call made.  A failure to enumerate the devices, a missing back
    camera and a missing format raise no alert.  The audio manager is
    initialised only with permission; the camera becomes active exactly when
    permission is granted and there is a back camera; and a failing audio
    manager leaves the provider as a working one does. *)
Theorem initializeApp_alerts (library : Library) (audio : Outcome unit) (fps : Z)
    (camera : State) :
  let granted := (requestPermissions library camera).1.1 in
  let after := initializeApp library audio fps camera in
  (In (Alert "Permissions Required") after.2 <-> granted = false)
  /\ (In (Alert "Initialization Error") after.2 <-> granted = true /\ audio = Throws)
  /\ (forall title l1 l2, after.2 = l1 ++ Alert title :: l2 -> l2 = [])
  /\ (In AudioInitialize after.2 <-> granted = true)
  /\ (isActive after.1 = true <->
      isActive camera = true
      \/ granted = true
         /\ exists backCamera,
              List.find (fun device => String.eqb (position device) "back")
                (getAvailableDevices library) = Some backCamera)
  /\ after.1 = (initializeApp library (Returns tt) fps camera).1.
Proof.
  cbv zeta.
  destruct (requestPermissions library camera).1.1 eqn:Hg.
  - rewrite !(initializeApp_granted _ _ _ _ Hg). cbn [fst snd].
    split; [|split; [|split; [|split; [|split]]]].
    + split; [|discriminate].
      destruct audio; cbn; intros H;
        repeat (destruct H as [H | H]; [discriminate|]); contradiction.
    + destruct audio as [[]|]; cbn.
      * split; [|intros [_ [=]]]. intros H.
        repeat (destruct H as [H | H]; [discriminate|]); contradiction.
      * split; [auto|]. intros _. do 4 right. now left.
    + intros title l1 l2. destruct audio; cbn [app].
      * intros H.
        assert (Hin : In (Alert title)
                        [RequestCameraPermission; RequestMicrophonePermission;
                         GetAvailableCameraDevices; AudioInitialize]).
        { rewrite H. apply in_elt. }
        cbn in Hin. repeat (destruct Hin as [Hin | Hin]; [discriminate|]). contradiction.
      * apply (alert_is_last [RequestCameraPermission; RequestMicrophonePermission;
                              GetAvailableCameraDevices; AudioInitialize]).
        intros t' Hin. cbn in Hin.
        repeat (destruct Hin as [Hin | Hin]; [discriminate|]). contradiction.
    + split; [auto|]. intros _. cbn. auto.
    + destruct (List.find _ _) as [b|].
      * destruct (findBestFormat _ _); cbn; split; eauto.
      * cbn. split; [auto|]. intros [H | (_ & b & [=])]. exact H.
    + reflexivity.
  - rewrite !(initializeApp_denied _ _ _ _ Hg). cbn [fst snd].
    assert (Hcalls : forall e, In e (requestPermissions library camera).2 ->
                       e = RequestCameraPermission \/ e = RequestMicrophonePermission).
    { unfold requestPermissions.
      destruct (requestCameraPermission library);
        [destruct (requestMicrophonePermission library)|]; cbn; intuition. }
    split; [|split; [|split; [|split; [|split]]]].
    + split; [reflexivity|]. intros _. apply in_or_app. right. now left.
    + split; [|intros [[=] _]]. intros H. apply in_app_or in H as [H | [[=] | []]].
      apply Hcalls in H as [[=] | [=]].
    + intros title l1 l2. apply alert_is_last.
      intros t' Hin. apply Hcalls in Hin as [[=] | [=]].
    + split; [|discriminate]. intros H. apply in_app_or in H as [H | [[=] | []]].
      apply Hcalls in H as [[=] | [=]].
    + cbn. split; [auto|]. intros [H | ([=] & _)]. exact H.
    + reflexivity.
Qed.

End Startup.

(** ** Frame-rate measurement *)




Lemma Qle_div_iff (a c d : Q) : 0 < d -> (a <= c / d <-> a * d <= c).
Proof.
  intros Hd. split.
  - intros H. apply (Qmult_le_r _ _ d Hd) in H.
    assert (E : c / d * d == c) by (field; lra).
    rewrite E in H. exact H.
  - intros H. apply Qle_shift_div_l; assumption.
Qed.




(** Thirty frames with one and the same timestamp: the quotient is
    [Infinity]. *)
Example measuredFps_zero_elapsed :
  CameraView.measuredFps (repeat 5 30) = PosInfinity.
Proof. reflexivity. Qed.



(** ** How one run of [exec] changes the app *)

Lemma exec_committed (k : nat) (ops : list Op) :
  forall (q : Sequence) (s : App),
    exec k q ops s
    = committed k (stored (now s) q ops) (emitted (now s) (startTime q) ops) s.
Proof.
  induction ops as [|op ops IH]; intros q s.
  - destruct s; reflexivity.
  - destruct op; cbn [exec stored emitted]; try (rewrite IH; reflexivity).
    + destruct s; reflexivity.
    + destruct s; reflexivity.
    + rewrite IH. unfold committed. cbn. rewrite <- app_assoc. reflexivity.
    + destruct s; reflexivity.
    + destruct (startTime q) as [t'|] eqn:Hst; rewrite IH, ?Hst; [|reflexivity].
      unfold committed. cbn. rewrite <- app_assoc. reflexivity.
Qed.

(** Unfolds a step down to the records it builds. *)
Ltac unfold_step :=
  unfold step, handleStartSequence, handleStopRecording, handleSequenceCancelled,
    timerFires, audioResolves, audioRejects, frameArrives, render, mountOverlay,
    canStart, canStop, isRecording in *;
  rewrite ?exec_committed in *.

Ltac break_match :=
  repeat match goal with
    | |- context [match ?x with _ => _ end] =>
        match type of x with
        | sumbool _ _ => destruct x
        | _ => destruct x eqn:?
        end
    end.

(** ** Runs of the app *)

Lemma run_app (s : App) (l1 l2 : list Input) :
  Run s (l1 ++ l2) = Run (Run s l1) l2.
Proof. apply foldl_app. Qed.

Lemma run_snoc (s : App) (l : list Input) (i : Input) :
  Run s (l ++ [i]) = Step (Run s l) i.
Proof. now rewrite run_app. Qed.

(** An invariant of [step] that holds at the start holds after every run. *)
Lemma run_invariant (P : App -> Prop) (s0 : App) :
  P s0 -> (forall s i, P s -> P (Step s i)) -> forall l, P (Run s0 l).
Proof.
  intros H0 Hstep l. revert s0 H0.
  induction l as [|i l IH]; intros s0 H0; [exact H0|].
  apply IH, Hstep, H0.
Qed.

(** The two state hooks of [RaceTimerApp] after a step. *)
Lemma step_flags (s : App) (i : Input) :
  (isSequenceActive (Step s i), recordingState (Step s i)) =
  match i with
  | TapStartSequence =>
      if canStart s then (true, recording)
      else (isSequenceActive s, recordingState s)
  | TapStopRecording =>
      if canStop s then (false, finished)
      else (isSequenceActive s, recordingState s)
  | TapCancel =>
      if isSequenceActive s then (false, idle)
      else (isSequenceActive s, recordingState s)
  | _ => (isSequenceActive s, recordingState s)
  end.
Proof.
  destruct s as [nw act rs tm cv sq rc cl].
  destruct i; unfold_step; cbn;
    repeat (break_match; rewrite ?exec_committed; cbn in * );
    try reflexivity; try congruence;
    destruct act, rs; cbn in *; congruence.
Qed.

Lemma overlay_only_while_recording_step (s : App) (i : Input) :
  overlay_only_while_recording s -> overlay_only_while_recording (Step s i).
Proof.
  unfold overlay_only_while_recording. intros H.
  pose proof (step_flags s i) as E.
  set (s' := Step s i) in *. clearbody s'.
  destruct i; cbn in E;
    repeat match type of E with
    | _ = (if ?c then _ else _) => destruct c
    end; injection E as -> ->; (exact H || congruence).
Qed.

Lemma overlay_only_while_recording_run (l : list Input) :
  overlay_only_while_recording (Run initial l).
Proof.
  apply run_invariant; [discriminate | apply overlay_only_while_recording_step].
Qed.

Lemma finished_step (s : App) (i : Input) :
  overlay_only_while_recording s ->
  recordingState s = finished ->
  recordingState (Step s i) = finished.
Proof.
  unfold overlay_only_while_recording. intros Hinv Hfin.
  pose proof (step_flags s i) as E. unfold canStart, canStop in E.
  set (s' := Step s i) in *. clearbody s'.
  rewrite Hfin in *.
  destruct (isSequenceActive s); [specialize (Hinv eq_refl); discriminate|].
  destruct i; cbn in E; congruence.
Qed.

(** C9.  Once [recordingState] is ['finished'] it stays ['finished']
    whatever happens next, and the Start control stays disabled. *)
Theorem finished_is_final (before after : list Input) :
  recordingState (Run initial before) = finished ->
  recordingState (Run initial (before ++ after)) = finished
  /\ canStart (Run initial (before ++ after)) = false.
Proof.
  intros Hfin. rewrite run_app.
  assert (H : overlay_only_while_recording (Run (Run initial before) after)
              /\ recordingState (Run (Run initial before) after) = finished).
  { apply (run_invariant
             (fun s => overlay_only_while_recording s /\ recordingState s = finished)).
    - split; [apply overlay_only_while_recording_run | exact Hfin].
    - intros s i [H1 H2]. split.
      + now apply overlay_only_while_recording_step.
      + now apply finished_step. }
  destruct H as [_ H]. split; [exact H|].
  unfold canStart. now rewrite H.
Qed.

(** ** The frame timestamps *)

Lemma later_ge (a t : Q) : a <= later a t.
Proof.
  unfold later. destruct (Qle_bool a t) eqn:E; [now apply Qle_bool_iff | lra].
Qed.

Lemma RecordingState_eqb_eq (a b : RecordingState) :
  RecordingState_eqb a b = true <-> a = b.
Proof. destruct a, b; cbn; split; congruence. Qed.

Lemma render_cameraView (old s : App) :
  cameraView (render config hasCameraRef hasDevice random old s)
  = if Bool.eqb (isRecording old) (isRecording s) then cameraView s
    else (CameraView.recordingEffect hasCameraRef hasDevice
            (isRecording s) (now s) (cameraView s)).1.
Proof.
  unfold render, mountOverlay.
  destruct (Bool.eqb (isRecording old) (isRecording s));
    [|destruct (CameraView.recordingEffect _ _ _ _ _) as [cv es]];
    match goal with |- context [if ?c then _ else _] => destruct c end;
    rewrite ?exec_committed; reflexivity.
Qed.

(** The [CameraView] after a step. *)
Lemma step_cameraView (s : App) (i : Input) :
  cameraView (Step s i) =
  match i with
  | FrameArrives =>
      (CameraView.frameProcessor (isRecording s) (now s) (cameraView s)).1
  | TapStartSequence =>
      if canStart s then
        (CameraView.recordingEffect hasCameraRef hasDevice true (now s) (cameraView s)).1
      else cameraView s
  | TapStopRecording =>
      if canStop s then
        (CameraView.recordingEffect hasCameraRef hasDevice false (now s) (cameraView s)).1
      else cameraView s
  | TapCancel =>
      if isSequenceActive s && isRecording s then
        (CameraView.recordingEffect hasCameraRef hasDevice false (now s) (cameraView s)).1
      else cameraView s
  | _ => cameraView s
  end.
Proof.
  destruct i; cbn [step].
  - reflexivity.
  - unfold canStart, handleStartSequence.
    repeat match goal with |- context [if ?c then _ else _] => destruct c eqn:? end;
      rewrite ?render_cameraView; try reflexivity;
      destruct s as [nw act rs tm cv sq rc cl]; unfold isRecording in *; cbn in *;
      destruct act, rs; cbn in *; congruence.
  - unfold canStop, handleStopRecording.
    repeat match goal with |- context [if ?c then _ else _] => destruct c eqn:? end;
      rewrite ?render_cameraView; try reflexivity;
      destruct s as [nw act rs tm cv sq rc cl]; unfold isRecording in *; cbn in *;
      destruct rs; cbn in *; congruence.
  - unfold handleSequenceCancelled.
    repeat match goal with |- context [if ?c then _ else _] => destruct c eqn:? end;
      rewrite ?render_cameraView; try reflexivity;
      destruct s as [nw act rs tm cv sq rc cl]; unfold isRecording in *; cbn in *;
      destruct rs; cbn in *; congruence.
  - unfold frameArrives.
    destruct (CameraView.frameProcessor _ _ _) as [cv es]. reflexivity.
  - unfold timerFires. break_match; rewrite ?exec_committed; reflexivity.
  - unfold audioResolves. break_match; rewrite ?exec_committed; reflexivity.
  - unfold audioRejects. break_match; rewrite ?exec_committed; reflexivity.
Qed.

(** A step that does not end in the state ['recording'] leaves the frame
    timestamps as they are; a step that enters it empties them. *)
Lemma frameTimestamps_step (s : App) (i : Input) :
  (recordingState (Step s i) <> recording ->
   CameraView.frameTimestamps (cameraView (Step s i))
   = CameraView.frameTimestamps (cameraView s))
  /\
  (recordingState s <> recording -> recordingState (Step s i) = recording ->
   CameraView.frameTimestamps (cameraView (Step s i)) = []).
Proof.
  pose proof (step_flags s i) as E. rewrite step_cameraView.
  set (s' := Step s i) in *. clearbody s'.
  unfold canStart, canStop, isRecording, CameraView.recordingEffect,
    CameraView.frameProcessor in *.
  destruct s as [nw act rs tm cv sq rc cl]; cbn in *.
  destruct i; cbn in *;
    destruct act, rs; cbn in *; injection E as E1 E2; rewrite ?E2;
    (split; intros; try congruence);
    repeat (break_match; cbn in * ); try reflexivity; congruence.
Qed.

Lemma render_now (old s : App) :
  now (render config hasCameraRef hasDevice random old s) = now s.
Proof.
  unfold render, mountOverlay.
  destruct (Bool.eqb (isRecording old) (isRecording s));
    [|destruct (CameraView.recordingEffect _ _ _ _ _) as [cv es]];
    match goal with |- context [if ?c then _ else _] => destruct c end;
    rewrite ?exec_committed; reflexivity.
Qed.


(** The clock after a step. *)
Lemma step_now (s : App) (i : Input) :
  now (Step s i) = match i with ClockReaches t => later (now s) t | _ => now s end.
Proof.
  destruct i; cbn [step];
    unfold handleStartSequence, handleStopRecording, handleSequenceCancelled,
      timerFires, audioResolves, audioRejects, frameArrives;
    repeat match goal with
      | |- context [match ?c with _ => _ end] => destruct c
      end;
    rewrite ?render_now, ?exec_committed; reflexivity.
Qed.

Lemma now_le_step (s : App) (i : Input) : now s <= now (Step s i).
Proof.
  rewrite step_now. destruct i; try apply Qle_refl. apply later_ge.
Qed.






Lemma frames_elapsed_step (s : App) (i : Input) :
  frames_elapsed s -> frames_elapsed (Step s i).
Proof.
  unfold frames_elapsed. intros [Hpos Hle].
  pose proof (now_le_step s i) as Hnow.
  assert (Hweak : forall t0,
             CameraView.recordingStartTime (cameraView s) = Some t0 ->
             t0 <= now (Step s i)
             /\ Forall (fun e => e <= now (Step s i) - t0)
                  (CameraView.frameTimestamps (cameraView s))).
  { intros t0 H0. destruct (Hle t0 H0) as [H1 H2]. split; [lra|].
    eapply Forall_impl; [exact H2|]. intros e He. cbn in He. lra. }
  rewrite step_cameraView.
  destruct i; try (split; assumption); rewrite step_now in *.
  - (* Start *)
    destruct (canStart s); [|split; assumption]. cbn. split; [constructor|].
    intros t0 [= <-]. split; [lra | constructor].
  - (* Stop *)
    destruct (canStop s); [|split; assumption].
    unfold CameraView.recordingEffect.
    destruct (truthy _); cbn; [|split; assumption].
    split; [assumption | discriminate].
  - (* Cancel *)
    destruct (_ && _); [|split; assumption].
    unfold CameraView.recordingEffect.
    destruct (truthy _); cbn; [|split; assumption].
    split; [assumption | discriminate].
  - (* Frame *)
    unfold CameraView.frameProcessor.
    destruct (CameraView.recordingStartTime (cameraView s)) as [t0|] eqn:Ht0;
      [|cbn [fst]; split; [assumption | intros ? ?; congruence]].
    destruct (Hle t0 eq_refl) as [H1 H2].
    assert (Hpush : Forall (fun e => 0 <= e)
                      (CameraView.frameTimestamps (cameraView s) ++ [now s - t0])
                    /\ Forall (fun e => e <= now s - t0)
                      (CameraView.frameTimestamps (cameraView s) ++ [now s - t0])).
    { split; apply Forall_app; split; try assumption;
        repeat constructor; lra. }
    destruct (_ && _); [|cbn [fst]; split; [assumption | intros t1 Ht1; apply Hle; congruence]].
    destruct (30 <=? _)%nat; cbn [fst CameraView.frameTimestamps CameraView.recordingStartTime];
      (split; [apply Hpush|]);
      intros t1 Ht1; rewrite ?Ht0 in Ht1; injection Ht1 as <-;
      (split; [assumption | apply Hpush]).
Qed.

Lemma frames_elapsed_run (l : list Input) : frames_elapsed (Run initial l).
Proof.
  apply run_invariant; [|apply frames_elapsed_step].
  split; [constructor | discriminate].
Qed.

(** An invariant of the steps on inputs that satisfy [allowed] holds after
    every run on such inputs. *)
Lemma run_invariant_on (allowed : Input -> Prop) (P : App -> Prop) (s0 : App) :
  P s0 -> (forall s i, allowed i -> P s -> P (Step s i)) ->
  forall l, Forall allowed l -> P (Run s0 l).
Proof.
  intros H0 Hstep l. revert s0 H0.
  induction l as [|i l IH]; intros s0 H0 Hl; [exact H0|].
  inversion Hl; subst. apply IH; [apply Hstep|]; assumption.
Qed.




Lemma idle_without_start_request (l : list Input) :
  Forall (fun i => i <> TapStartSequence) l ->
  recordingState (Run initial l) = idle
  /\ CameraView.frameTimestamps (cameraView (Run initial l)) = [].
Proof.
  apply (run_invariant_on (fun i => i <> TapStartSequence)
           (fun s => recordingState s = idle
                     /\ CameraView.frameTimestamps (cameraView s) = [])).
  - split; reflexivity.
  - intros s i Hi [H1 H2].
    assert (H3 : recordingState (Step s i) = idle).
    { pose proof (f_equal snd (step_flags s i)) as E. cbn [snd] in E.
      unfold canStop in E. rewrite H1 in E. rewrite E.
      destruct i; try reflexivity; try congruence.
      now destruct (isSequenceActive s). }
    split; [exact H3|]. rewrite <- H2.
    apply (proj1 (frameTimestamps_step s i)). rewrite H3. discriminate.
Qed.


(** The steps of the cancelled sequence above: the frame during the
    countdown is recorded, and the cancel leaves it in place. *)
Example frames_through_a_cancelled_sequence :
  let go := run defaultStartSequenceConfig true true scenario_random initial in
  let frames l := CameraView.frameTimestamps (cameraView (go l)) in
  frames [ClockReaches 1000] = []
  /\ frames [ClockReaches 1000; TapStartSequence] = []
  /\ frames [ClockReaches 1000; TapStartSequence; ClockReaches 1010; FrameArrives]
     = [10]
  /\ frames [ClockReaches 1000; TapStartSequence; ClockReaches 1010; FrameArrives;
             TapCancel] = [10]
  /\ recordingState
       (go [ClockReaches 1000; TapStartSequence; ClockReaches 1010; FrameArrives;
            TapCancel]) = idle.
Proof. vm_compute. repeat split; reflexivity. Qed.

(** ** The calls a step issues *)

Lemma step_has_kind (s : App) (i : Input) : step_kind s (Step s i).
Proof.
  assert (Hnone : step_kind s s).
  { apply (quiet_step _ _ []); [reflexivity | reflexivity | constructor]. }
  destruct i; cbn [step].
  - apply (quiet_step _ _ []); [reflexivity | reflexivity | constructor].
  - (* start request *)
    destruct (canStart s) eqn:Hcan; [|exact Hnone]. clear Hnone.
    unfold canStart in Hcan. apply andb_true_iff in Hcan as [Hidle Hact].
    apply RecordingState_eqb_eq in Hidle. apply negb_true_iff in Hact.
    unfold handleStartSequence, render, mountOverlay, isRecording.
    cbn [with_flags recordingState isSequenceActive now cameraView].
    rewrite Hidle, Hact.
    cbn [orb RecordingState_eqb Bool.eqb negb andb CameraView.recordingEffect].
    cbn [issued with_cameraView isSequenceActive negb andb].
    rewrite exec_committed.
    destruct s as [nw act rs tm cv sq rc cl].
    cbn -[stored emitted startSequence] in *. subst.
    apply (mount_step _ _ (random rc) (random (S rc)));
      cbn -[stored emitted startSequence].
    + reflexivity.
    + rewrite rev_app_distr, <- app_assoc. reflexivity.
    + rewrite insert_app_r_alt by lia.
      replace (length sq - length sq)%nat with 0%nat by lia. reflexivity.
    + reflexivity.
  - (* stop request *)
    destruct (canStop s) eqn:Hcan; [|exact Hnone]. clear Hnone.
    unfold canStop in Hcan. apply RecordingState_eqb_eq in Hcan.
    unfold handleStopRecording, render, isRecording, CameraView.recordingEffect,
      CameraView.stopRecording.
    destruct s as [nw act rs tm cv sq rc cl]; cbn in *. subst. cbn.
    destruct (truthy _); [destruct hasCameraRef|]; cbn; rewrite ?andb_false_r;
      first [ solve [apply (quiet_step _ _ [SetFinishTime nw]);
                     first [ reflexivity | repeat constructor; discriminate ]]
            | solve [apply (quiet_step _ _ [SetFinishTime nw; CameraStopRecording]);
                     first [ reflexivity | repeat constructor; discriminate ]] ].
  - (* cancel *)
    destruct (isSequenceActive s) eqn:Hact; [|exact Hnone]. clear Hnone.
    unfold handleSequenceCancelled, render, isRecording, CameraView.recordingEffect,
      CameraView.stopRecording.
    destruct s as [nw act rs tm cv sq rc cl]; cbn in *. subst.
    destruct rs; cbn;
      try (apply (quiet_step _ _ []); [reflexivity | reflexivity | constructor]).
    destruct (truthy _); [destruct hasCameraRef|]; cbn;
      first [ solve [apply (quiet_step _ _ []);
                     first [ reflexivity | repeat constructor; discriminate ]]
            | solve [apply (quiet_step _ _ [CameraStopRecording]);
                     first [ reflexivity | repeat constructor; discriminate ]] ].
  - (* frame *)
    unfold frameArrives, CameraView.frameProcessor.
    destruct (CameraView.recordingStartTime (cameraView s));
      [|apply (quiet_step _ _ []); [reflexivity | reflexivity | constructor]].
    destruct (_ && _);
      [|apply (quiet_step _ _ []); [reflexivity | reflexivity | constructor]].
    destruct (30 <=? _)%nat.
    + eapply (quiet_step _ _ [SetActualFps _]); [reflexivity | reflexivity|].
      repeat constructor; discriminate.
    + apply (quiet_step _ _ []); [reflexivity | reflexivity | constructor].
  - (* timer *)
    unfold timerFires.
    destruct (sequences s !! k) as [q|] eqn:Hk; [|exact Hnone].
    destruct (waiting q) eqn:Hw; try exact Hnone.
    destruct (Qle_bool _ _) eqn:Hdue; [|exact Hnone].
    rewrite exec_committed.
    apply (resume_step _ _ k q (rest q)); auto.
    rewrite Hw. now apply Qle_bool_iff.
  - (* playback over *)
    unfold audioResolves.
    destruct (sequences s !! k) as [q|] eqn:Hk; [|exact Hnone].
    destruct (waiting q) eqn:Hw; try exact Hnone.
    rewrite exec_committed.
    apply (resume_step _ _ k q (rest q)); auto.
    now rewrite Hw.
  - (* playback failed *)
    unfold audioRejects.
    destruct (sequences s !! k) as [q|] eqn:Hk; [|exact Hnone].
    destruct (waiting q) eqn:Hw; try exact Hnone.
    rewrite exec_committed.
    apply (resume_step _ _ k q []); auto.
    now rewrite Hw.
Qed.

(** ** Orders among the calls *)


















(** ** The start transition *)

(** The calls of that session. *)
Example whole_session_trace :
  trace (run defaultStartSequenceConfig true true scenario_random initial whole_session)
  = [CameraStartRecording; SetTimeout 1000; SetTimeout 1000; SetTimeout 1000;
     PlayAudio "go_to_start"; SetTimeout (5 * 1000);
     PlayAudio "in_position"; SetTimeout ((0.5 * (3.0 - 1.0) + 1.0) * 1000);
     PlayAudio "set"; SetTimeout ((0.25 * (3.0 - 1.0) + 1.0) * 1000);
     StartTimeRead 12500; PlayAudio "start_beep"; SetTimeout 500;
     SetStartTime 12500].
Proof. reflexivity. Qed.




(** ** Before the countdown audio *)



(** ** How often the start fires *)










Lemma idle_only_by_cancel (s : App) (i : Input) :
  i <> TapCancel ->
  recordingState (Step s i) = idle -> recordingState s = idle.
Proof.
  intros Hi. pose proof (f_equal snd (step_flags s i)) as E. cbn [snd] in E.
  destruct i; rewrite E;
    try destruct (canStart s); try destruct (canStop s); cbn [snd]; congruence.
Qed.

Lemma started_at_most_once_step (s : App) (i : Input) :
  i <> TapCancel -> started_at_most_once s -> started_at_most_once (Step s i).
Proof.
  intros Hi [Hlen Hidle].
  pose proof (idle_only_by_cancel s i Hi) as Hback.
  destruct (step_has_kind s i) as [es Hc Hs Hes | k q ops Hk Hops Hc Hs | r1 r2 Hi0 Hc Hs Hrec];
    unfold started_at_most_once; rewrite Hs.
  - split; [exact Hlen|]. intros Hne Hid. apply (Hidle Hne). now apply Hback.
  - rewrite length_insert. split; [exact Hlen|].
    intros _ Hid. apply Hidle; [|now apply Hback].
    intros Hnil. rewrite Hnil in Hk. discriminate.
  - assert (Hnil : sequences s = []).
    { destruct (sequences s) eqn:E; [reflexivity|].
      exfalso. apply Hidle; [discriminate | exact Hi0]. }
    rewrite Hnil. cbn. split; [lia|]. intros _. rewrite Hrec. discriminate.
Qed.







(** ** Cancelling the sequence *)

(** C5 fails on the code.  The cancel takes the overlay away and puts the
    state back to ['idle'] with no start time set, but the invocation of
    [startSequence] is not stopped: its timers go on firing, the set cue
    and the beep are played, and the start time is set after all. *)
Lemma start_time_set_after_cancel :
  let go := run defaultStartSequenceConfig true true scenario_random initial in
  let before := go until_in_position in
  let cancelled := go (until_in_position ++ [TapCancel]) in
  let later_on := go (until_in_position ++ [TapCancel] ++ after_the_cancel) in
  (phase <$> sequences before !! 0%nat) = Some SequencePhase.in_position
  /\ TimingMarkers.startTime (timingMarkers before) = None
  /\ recordingState cancelled = idle
  /\ isSequenceActive cancelled = false
  /\ TimingMarkers.startTime (timingMarkers cancelled) = None
  /\ recordingState later_on = idle
  /\ TimingMarkers.startTime (timingMarkers later_on) = Some 12500
  /\ trace later_on
     = trace cancelled
       ++ [PlayAudio "set"; SetTimeout ((0.25 * (3.0 - 1.0) + 1.0) * 1000);
           StartTimeRead 12500; PlayAudio "start_beep"; SetTimeout 500;
           SetStartTime 12500].
Proof. repeat split; reflexivity. Qed.

(** The same defect in the session that follows a cancel: the abandoned
    invocation beeps during the countdown of the new one, and the start
    time the ledger keeps is the one it read. *)
Example abandoned_sequence_in_next_session :
  let s := run defaultStartSequenceConfig true true scenario_random initial
             cancel_then_start_again in
  recordingState s = recording
  /\ count is_beep (trace s) = 2%nat
  /\ List.filter is_stamp (trace s) = [SetStartTime 12500; SetStartTime 21100]
  /\ TimingMarkers.startTime (timingMarkers s) = Some 12500.
Proof. repeat split; reflexivity. Qed.

(** ** The waits before the start *)


Lemma waited_later (t0 total now now' : Q) (q : Sequence) :
  now <= now' -> waited t0 total now q -> waited t0 total now' q.
Proof.
  unfold waited. intros Hle.
  destruct (startTime q); [intros [H1 H2]; split; lra|].
  destruct (waiting q); auto. intros H. lra.
Qed.

Lemma stored_waited (t0 total now : Q) (ops : list Op) :
  forall q : Sequence,
    match startTime q with
    | Some t => t0 + total <= t /\ t <= now
    | None => t0 + total <= now + waitBeforeStart ops
    end ->
    waited t0 total now (stored now q ops).
Proof.
  induction ops as [|op ops IH]; intros q Hq.
  - unfold waited. cbn. destruct (startTime q); auto.
  - destruct op; cbn [stored];
      try (apply IH; cbn [startTime waitBeforeStart] in *; exact Hq).
    + (* awaitDelay *)
      unfold waited. cbn. cbn [waitBeforeStart] in Hq.
      destruct (startTime q); [exact Hq | lra].
    + (* awaitPlayAudio *)
      unfold waited. cbn. cbn [waitBeforeStart] in Hq.
      destruct (startTime q); [exact Hq | lra].
    + (* readStartTime *)
      apply IH. cbn [startTime]. cbn [waitBeforeStart] in Hq.
      destruct (startTime q); [split; lra | split; lra].
    + (* setTimeoutThen *)
      unfold waited. cbn. cbn [waitBeforeStart] in Hq.
      destruct (startTime q); [exact Hq | lra].
Qed.

Lemma waited_step (t0 total : Q) (k : nat) (s : App) (i : Input) :
  (k < length (sequences s))%nat ->
  (forall q, sequences s !! k = Some q -> waited t0 total (now s) q) ->
  (k < length (sequences (Step s i)))%nat
  /\ forall q, sequences (Step s i) !! k = Some q ->
       waited t0 total (now (Step s i)) q.
Proof.
  intros Hk Hinv. pose proof (now_le_step s i) as Hnow.
  destruct (step_has_kind s i)
    as [es Hc Hs Hes | k' q' ops Hk' Hops Hc Hs Hen | r1 r2 _ Hc Hs _];
    rewrite Hs.
  - split; [exact Hk|]. intros q Hq.
    apply (waited_later _ _ (now s)); auto.
  - rewrite length_insert. split; [exact Hk|]. intros q Hq.
    apply (waited_later _ _ (now s)); [exact Hnow|].
    destruct (decide (k' = k)) as [-> | Hne].
    + rewrite list_lookup_insert_eq in Hq by exact Hk. injection Hq as <-.
      specialize (Hinv q' Hk'). unfold waited in Hinv.
      destruct Hops as [-> | ->].
      * apply stored_waited.
        destruct (startTime q'); [exact Hinv|].
        destruct (waiting q'); [lra | exact Hinv | contradiction].
      * unfold waited. cbn. destruct (startTime q'); auto.
    + rewrite list_lookup_insert_ne in Hq by exact Hne. now apply Hinv.
  - rewrite length_app. split; [lia|]. intros q Hq.
    rewrite lookup_app_l in Hq by exact Hk.
    apply (waited_later _ _ (now s)); auto.
Qed.

(** An accepted start request mounts the overlay, whose [startSequence]
    draws the next two results of [Math.random()]. *)
Lemma start_request_accepted (s : App) :
  canStart s = true ->
  now (Step s TapStartSequence) = now s
  /\ sequences (Step s TapStartSequence)
     = sequences s
       ++ [stored (now s)
             (mounted config (random (randomCalls s)) (random (S (randomCalls s))))
             (startSequence config (random (randomCalls s))
                (random (S (randomCalls s))))].
Proof.
  intros Hcan. split; [now rewrite step_now|].
  cbn [step]. rewrite Hcan.
  unfold canStart in Hcan. apply andb_true_iff in Hcan as [Hidle Hact].
  apply RecordingState_eqb_eq in Hidle. apply negb_true_iff in Hact.
  unfold handleStartSequence, render, mountOverlay, isRecording.
  cbn [with_flags recordingState isSequenceActive now cameraView].
  rewrite Hidle, Hact.
  cbn [orb RecordingState_eqb Bool.eqb negb andb CameraView.recordingEffect].
  cbn [issued with_cameraView isSequenceActive negb andb].
  rewrite exec_committed.
  destruct s as [nw act rs tm cv sq rc cl].
  cbn -[stored emitted startSequence].
  rewrite insert_app_r_alt by lia.
  replace (length sq - length sq)%nat with 0%nat by lia. reflexivity.
Qed.

Lemma waitBeforeStart_startSequence (r1 r2 : Q) :
  waitBeforeStart (startSequence config r1 r2)
  == 3 * 1000 + goToStartDuration config * 1000
     + randomDelay r1 (inPositionMin config) (inPositionMax config)
     + randomDelay r2 (setMin config) (setMax config).
Proof.
  unfold startSequence, playIfEnabled.
  destruct (audioEnabled config); cbn; ring.
Qed.

(** The start time of a sequence is read no earlier than its timer waits
    allow: three countdown seconds, the go-to-start wait, and the two drawn
    waits after the start request that launched it. *)
Lemma start_read_after_waits (l1 l2 : list Input) (q : Sequence) (t : Q) :
  let s1 := Run initial l1 in
  canStart s1 = true ->
  sequences (Run (Step s1 TapStartSequence) l2) !! length (sequences s1) = Some q ->
  startTime q = Some t ->
  now s1
  + (3 * 1000 + goToStartDuration config * 1000
     + randomDelay (random (randomCalls s1)) (inPositionMin config) (inPositionMax config)
     + randomDelay (random (S (randomCalls s1))) (setMin config) (setMax config))
  <= t.
Proof.
  intros s1 Hcan Hq Ht.
  destruct (start_request_accepted s1 Hcan) as [Hnow Hseq].
  set (r1 := random (randomCalls s1)) in *.
  set (r2 := random (S (randomCalls s1))) in *.
  set (total := waitBeforeStart (startSequence config r1 r2)).
  assert (Hinv : (length (sequences s1) < length (sequences (Run (Step s1 TapStartSequence) l2)))%nat
                 /\ forall q, sequences (Run (Step s1 TapStartSequence) l2)
                              !! length (sequences s1) = Some q ->
                      waited (now s1) total (now (Run (Step s1 TapStartSequence) l2)) q).
  { apply (run_invariant
             (fun s => (length (sequences s1) < length (sequences s))%nat
                       /\ forall q, sequences s !! length (sequences s1) = Some q ->
                            waited (now s1) total (now s) q)).
    - rewrite Hseq, Hnow, length_app. cbn [length]. split; [lia|].
      intros q0 Hq0. rewrite lookup_app_r in Hq0 by lia.
      replace (length (sequences s1) - length (sequences s1))%nat with 0%nat in Hq0 by lia.
      injection Hq0 as <-.
      apply (stored_waited (now s1) total (now s1) (startSequence config r1 r2)
               (mounted config r1 r2)).
      cbn [startTime mounted]. unfold total. lra.
    - intros s i [H1 H2]. now apply waited_step. }
  destruct Hinv as [_ Hinv]. specialize (Hinv q Hq).
  unfold waited in Hinv. rewrite Ht in Hinv. destruct Hinv as [Hinv _].
  unfold total in Hinv. rewrite waitBeforeStart_startSequence in Hinv. exact Hinv.
Qed.

(** ** The camera view during a run *)

Lemma StronglySorted_snoc (l : list Q) (x : Q) :
  StronglySorted Qle l -> Forall (fun e => e <= x) l ->
  StronglySorted Qle (l ++ [x]).
Proof.
  induction 1 as [|a l Hl IH Ha]; intros Hx; cbn.
  - repeat constructor.
  - inversion Hx; subst. constructor; [now apply IH|].
    apply Forall_app. split; [exact Ha | now constructor].
Qed.

Lemma cameraView_kept_step (s : App) (i : Input) :
  frames_elapsed s -> cameraView_kept s -> cameraView_kept (Step s i).
Proof.
  unfold cameraView_kept. cbv zeta.
  intros [_ Hle] (Hcount & Hfps & Hsorted & Hrec & Hidle).
  pose proof (step_flags s i) as E. rewrite step_cameraView.
  set (s' := Step s i) in *. clearbody s'.
  assert (Hsame : recordingState s' = recordingState s ->
            CameraView.frameCount (cameraView s)
            = length (CameraView.frameTimestamps (cameraView s))
            /\ ((length (CameraView.frameTimestamps (cameraView s)) < 30)%nat ->
                CameraView.actualFps (cameraView s) = Num 0)
            /\ StronglySorted Qle (CameraView.frameTimestamps (cameraView s))
            /\ (recordingState s' = recording ->
                exists t0, CameraView.recordingStartTime (cameraView s) = Some t0)
            /\ (recordingState s' <> recording ->
                truthy (CameraView.recordingStartTime (cameraView s)) = false)).
  { intros ->. auto. }
  destruct i; cbn [fst snd] in E; try (injection E as _ E; now apply Hsame).
  - (* start request *)
    destruct (canStart s) eqn:Hcan; [|injection E as _ E; now apply Hsame].
    injection E as _ E. rewrite E. cbn.
    repeat split; try constructor; try congruence; eauto.
  - (* stop request *)
    destruct (canStop s) eqn:Hcan; [|injection E as _ E; now apply Hsame].
    injection E as _ E. rewrite E.
    unfold CameraView.recordingEffect.
    destruct (truthy (CameraView.recordingStartTime (cameraView s))) eqn:Ht; cbn;
      repeat split; auto; try discriminate.
  - (* cancel *)
    unfold isRecording in *.
    destruct (isSequenceActive s) eqn:Hact; [|injection E as _ E; now apply Hsame].
    injection E as _ E. rewrite E. cbn [andb].
    destruct (RecordingState_eqb (recordingState s) recording) eqn:Hr.
    + unfold CameraView.recordingEffect.
      destruct (truthy (CameraView.recordingStartTime (cameraView s))) eqn:Ht; cbn;
        repeat split; auto; try discriminate.
    + repeat split; auto; try discriminate.
      intros _. apply Hidle. intros H. apply RecordingState_eqb_eq in H. congruence.
  - (* frame *)
    injection E as _ E. clear Hsame. rewrite E.
    unfold CameraView.frameProcessor.
    destruct (CameraView.recordingStartTime (cameraView s)) as [t0|] eqn:Ht0;
      [|cbn [fst]; rewrite ?Ht0; auto 10].
    destruct (Hle t0 eq_refl) as [_ Hbelow].
    destruct (isRecording s && truthy (Some t0)) eqn:Hgo;
      [|cbn [fst]; rewrite ?Ht0; auto 10].
    assert (Hsn : StronglySorted Qle
                    (CameraView.frameTimestamps (cameraView s) ++ [now s - t0])).
    { now apply StronglySorted_snoc. }
    destruct (30 <=? _)%nat eqn:H30;
      cbn [fst CameraView.frameCount CameraView.frameTimestamps CameraView.actualFps
           CameraView.recordingStartTime];
      rewrite length_app in *; cbn [length] in *.
    + apply Nat.leb_le in H30. repeat split; try lia; try exact Hsn; eauto.
    + apply Nat.leb_gt in H30. repeat split; try lia; try exact Hsn; eauto.
      intros _. apply Hfps. lia.
Qed.

Lemma cameraView_kept_run (l : list Input) : cameraView_kept (Run initial l).
Proof.
  apply (run_invariant (fun s => frames_elapsed s /\ cameraView_kept s)).
  - split; [split; [constructor | discriminate]|].
    cbn. repeat split; try constructor; try discriminate; auto.
  - intros s i [H1 H2]. split.
    + now apply frames_elapsed_step.
    + now apply cameraView_kept_step.
Qed.

Lemma truthy_positive (t0 : Q) : 0 < t0 -> truthy (Some t0) = true.
Proof.
  intros H. cbn. destruct (Qeq_bool t0 0) eqn:E; [|reflexivity].
  apply Qeq_bool_iff in E. lra.
Qed.

Lemma recording_start_held_step (s : App) (i : Input) :
  recording_start_held s -> recording_start_held (Step s i).
Proof.
  unfold recording_start_held. intros [Hpos Href].
  pose proof (now_le_step s i) as Hnow.
  pose proof (step_flags s i) as E.
  pose proof (step_now s i) as En.
  rewrite step_cameraView.
  set (s' := Step s i) in *. clearbody s'.
  split; [lra|].
  assert (Hsame : recordingState s' = recordingState s ->
            if isRecording s'
            then exists t0,
                   CameraView.recordingStartTime (cameraView s) = Some t0
                   /\ 0 < t0 /\ t0 <= now s'
            else CameraView.recordingStartTime (cameraView s) = None).
  { unfold isRecording in *. intros ->.
    destruct (RecordingState_eqb (recordingState s) recording); [|exact Href].
    destruct Href as (t0 & H1 & H2 & H3). exists t0. repeat split; auto. lra. }
  destruct i; cbn [fst snd] in E; try (injection E as _ E; now apply Hsame).
  - (* start request *)
    destruct (canStart s) eqn:Hcan; [|injection E as _ E; now apply Hsame].
    injection E as _ E. unfold isRecording. rewrite E. cbn.
    exists (now s). rewrite En. repeat split; auto. apply Qle_refl.
  - (* stop request *)
    destruct (canStop s) eqn:Hcan; [|injection E as _ E; now apply Hsame].
    injection E as _ E. unfold isRecording in *. rewrite E. cbn [RecordingState_eqb].
    unfold canStop in Hcan. rewrite Hcan in Href.
    destruct Href as (t0 & H1 & H2 & H3).
    unfold CameraView.recordingEffect. rewrite H1, (truthy_positive t0 H2). reflexivity.
  - (* cancel *)
    unfold isRecording in *.
    destruct (isSequenceActive s) eqn:Hact; [|injection E as _ E; now apply Hsame].
    injection E as _ E. rewrite E. cbn [andb RecordingState_eqb].
    destruct (RecordingState_eqb (recordingState s) recording) eqn:Hr; [|exact Href].
    destruct Href as (t0 & H1 & H2 & H3).
    unfold CameraView.recordingEffect. rewrite H1, (truthy_positive t0 H2). reflexivity.
  - (* frame *)
    injection E as _ E. specialize (Hsame E).
    unfold CameraView.frameProcessor.
    destruct (CameraView.recordingStartTime (cameraView s)) as [t0|] eqn:Ht0;
      [|cbn [fst]; rewrite ?Ht0; exact Hsame].
    destruct (isRecording s && truthy (Some t0)); [|cbn [fst]; rewrite ?Ht0; exact Hsame].
    destruct (30 <=? _)%nat; cbn [fst CameraView.recordingStartTime]; exact Hsame.
Qed.

Lemma recording_start_held_run (t : Q) (l : list Input) :
  0 < t -> recording_start_held (Run initial (ClockReaches t :: l)).
Proof.
  intros Ht.
  change (Run initial (ClockReaches t :: l)) with (Run (Step initial (ClockReaches t)) l).
  apply run_invariant; [|apply recording_start_held_step].
  split; [|reflexivity]. cbn. unfold later. cbn.
  destruct (Qle_bool 0 t) eqn:E; [exact Ht|].
  assert (Qle_bool 0 t = true) by (apply Qle_bool_iff; lra). congruence.
Qed.


(** X6.  The frame count always is the number of frame timestamps held. *)
Theorem frameCount_is_number_of_timestamps (l : list Input) :
  CameraView.frameCount (cameraView (Run initial l))
  = length (CameraView.frameTimestamps (cameraView (Run initial l))).
Proof. apply cameraView_kept_run. Qed.

Lemma sorted_lookup (ts : list Q) :
  StronglySorted Qle ts ->
  forall i j a b, (i <= j)%nat -> ts !! i = Some a -> ts !! j = Some b -> a <= b.
Proof.
  induction 1 as [|x ts Hts IH Hx]; intros i j a b Hij Ha Hb; [discriminate|].
  destruct i as [|i], j as [|j]; cbn in Ha, Hb; try lia.
  - injection Ha as <-. injection Hb as <-. apply Qle_refl.
  - injection Ha as <-. apply (Forall_lookup_1 _ _ _ _ Hx Hb).
  - apply (IH i j); auto. lia.
Qed.

Lemma sorted_below_last (ts : list Q) (x : Q) :
  StronglySorted Qle ts -> last ts = Some x -> Forall (fun e => e <= x) ts.
Proof.
  intros Hs Hlast. apply Forall_lookup_2. intros i e Hi.
  rewrite last_lookup in Hlast.
  apply (sorted_lookup ts Hs i (pred (length ts))); auto.
  apply lookup_lt_Some in Hi. lia.
Qed.

(** X7.  The frame timestamps are in order, none is negative, and the elapsed
    time handed to the recording overlay, the last of them, is the
    largest. *)
Theorem frameTimestamps_in_order (l : list Input) :
  let cv := cameraView (Run initial l) in
  (forall i j a b,
      (i <= j)%nat ->
      CameraView.frameTimestamps cv !! i = Some a ->
      CameraView.frameTimestamps cv !! j = Some b -> a <= b)
  /\ Forall (fun e => 0 <= e /\ e <= CameraView.elapsedTime cv)
       (CameraView.frameTimestamps cv).
Proof.
  cbv zeta. destruct (cameraView_kept_run l) as (_ & _ & Hsorted & _).
  destruct (frames_elapsed_run l) as [Hpos _].
  split; [now apply sorted_lookup|].
  unfold CameraView.elapsedTime.
  destruct (last _) as [x|] eqn:Hlast.
  - pose proof (sorted_below_last _ x Hsorted Hlast) as Hle.
    apply Forall_lookup_2. intros i e Hi. split.
    + apply (Forall_lookup_1 _ _ _ _ Hpos Hi).
    + apply (Forall_lookup_1 _ _ _ _ Hle Hi).
  - apply last_None in Hlast. rewrite Hlast. constructor.
Qed.

(** X8.  With a clock that has left 0, frames are recorded exactly while the
    state is ['recording']: the start of the recording is then held, and a
    frame that arrives is recorded as the time elapsed since; in any other
    state no start is held and a frame changes nothing. *)
Theorem frames_recorded_exactly_while_recording (t : Q) (l : list Input) :
  0 < t ->
  let s := Run initial (ClockReaches t :: l) in
  (recordingState s = recording ->
   exists t0,
     CameraView.recordingStartTime (cameraView s) = Some t0
     /\ 0 < t0 /\ t0 <= now s
     /\ CameraView.frameTimestamps (cameraView (Step s FrameArrives))
        = CameraView.frameTimestamps (cameraView s) ++ [now s - t0])
  /\ (recordingState s <> recording ->
      CameraView.recordingStartTime (cameraView s) = None
      /\ Step s FrameArrives = s).
Proof.
  intros Ht s. pose proof (recording_start_held_run t l Ht) as H.
  change (recording_start_held s) in H. clearbody s. destruct H as [_ Href].
  unfold isRecording in Href. split.
  - intros Hrec. rewrite Hrec in Href. cbn [RecordingState_eqb] in Href.
    destruct Href as (t0 & H1 & H2 & H3). exists t0.
    split; [exact H1|]. split; [exact H2|]. split; [exact H3|].
    rewrite step_cameraView. unfold CameraView.frameProcessor, isRecording.
    rewrite H1, Hrec, (truthy_positive t0 H2). cbn [RecordingState_eqb andb].
    destruct (30 <=? _)%nat; reflexivity.
  - intros Hrec.
    assert (Hr : RecordingState_eqb (recordingState s) recording = false).
    { destruct (RecordingState_eqb _ _) eqn:E; [|reflexivity].
      apply RecordingState_eqb_eq in E. contradiction. }
    rewrite Hr in Href. split; [exact Href|].
    cbn [step]. unfold frameArrives, CameraView.frameProcessor. rewrite Href.
    destruct s; reflexivity.
Qed.


(** ** The overlay during a run *)

Lemma stored_at_each_wait (P : SequencePhase.t -> Z -> string -> bool -> Prop)
    (t : Q) (ops : list Op) :
  forall q : Sequence,
    at_each_wait P (phase q) (countdown q) (phaseText q) (hasRead q) ops ->
    let q' := stored t q ops in
    P (phase q') (countdown q') (phaseText q') (hasRead q')
    /\ at_each_wait P (phase q') (countdown q') (phaseText q') (hasRead q') (rest q').
Proof.
  induction ops as [|op ops IH]; intros q H.
  - cbn in *. auto.
  - destruct op; cbn [stored at_each_wait] in *;
      try (apply IH; exact H);
      try (destruct H as [H1 H2]; cbn; auto).
Qed.

Lemma startSequence_fits_phase (r1 r2 : Q) :
  at_each_wait hooks_fit_phase SequencePhase.countdown 3 "Get Ready" false
    (startSequence config r1 r2).
Proof.
  unfold startSequence, playIfEnabled.
  destruct (audioEnabled config); cbn; intuition.
Qed.

Lemma overlays_fit_phase_step (s : App) (i : Input) :
  overlays_fit_phase s -> overlays_fit_phase (Step s i).
Proof.
  unfold overlays_fit_phase. intros Hall.
  destruct (step_has_kind s i) as [es _ Hs _ | k q ops Hk Hops _ Hs _ | r1 r2 _ _ Hs _];
    rewrite Hs.
  - exact Hall.
  - apply Forall_insert; [exact Hall|].
    destruct (Forall_lookup_1 _ _ _ _ Hall Hk) as [H1 H2].
    destruct Hops as [-> | ->].
    + now apply stored_at_each_wait.
    + cbn. auto.
  - apply Forall_app. split; [exact Hall|]. constructor; [|constructor].
    apply (stored_at_each_wait hooks_fit_phase (now s) (startSequence config r1 r2)
             (mounted config r1 r2)).
    apply startSequence_fits_phase.
Qed.

Lemma overlays_fit_phase_run (l : list Input) : overlays_fit_phase (Run initial l).
Proof. apply run_invariant; [constructor | apply overlays_fit_phase_step]. Qed.

(** X10.  What the overlay shows at any wait of its sequence is a text of its
    phase: one of the digits 3, 2, 1 during the countdown, then the text of
    the phase; the initial text 'Get Ready' is shown at none of them. *)
Theorem overlay_shows_text_of_phase (l : list Input) (k : nat) (q : Sequence) :
  sequences (Run initial l) !! k = Some q ->
  In (getDisplayText q) (texts_of_phase (phase q))
  /\ getDisplayText q <> "Get Ready".
Proof.
  intros Hk.
  destruct (Forall_lookup_1 _ _ _ _ (overlays_fit_phase_run l) Hk) as [H _].
  unfold getDisplayText, hooks_fit_phase in *.
  destruct (phase q); cbn [texts_of_phase]; cbv iota in H.
  - destruct H as [[-> | [-> | ->]] _]; cbn; intuition discriminate.
  - destruct H as [-> _]. cbn; intuition discriminate.
  - destruct H as [-> _]. cbn; intuition discriminate.
  - destruct H as [-> _]. cbn; intuition discriminate.
  - destruct H as [-> _]. cbn; intuition discriminate.
  - destruct H as [-> _]. cbn; intuition discriminate.
Qed.

(** X11.  An invocation holds a start time exactly when its overlay is in the
    phase ['start'] or ['completed']: the clock is read as the phase turns
    to ['start'], before the next wait. *)
Theorem start_time_read_on_entering_start (l : list Input) (k : nat) (q : Sequence) :
  sequences (Run initial l) !! k = Some q ->
  (is_Some (startTime q) <->
   phase q = SequencePhase.start \/ phase q = SequencePhase.completed).
Proof.
  intros Hk.
  destruct (Forall_lookup_1 _ _ _ _ (overlays_fit_phase_run l) Hk) as [H _].
  unfold hooks_fit_phase, hasRead in H.
  destruct (phase q), (startTime q) as [t|]; cbv iota in H; destruct H as [_ H];
    try discriminate;
    (split; [intros Hs; try (destruct Hs; discriminate); auto
            | intros [? | ?]; try discriminate; eauto]).
Qed.

Lemma stored_ascending (t : Q) (ops : list Op) :
  forall q : Sequence,
    ascending (phase_rank (phase q)) ops ->
    (phase_rank (phase q) <= phase_rank (phase (stored t q ops)))%nat
    /\ ascending (phase_rank (phase (stored t q ops))) (rest (stored t q ops)).
Proof.
  induction ops as [|op ops IH]; intros q H.
  - cbn. auto.
  - destruct op; cbn [stored ascending] in *;
      try solve [apply IH; exact H];
      try solve [match goal with
                 | |- context [stored t ?q' ops] => apply (IH q'); exact H
                 end];
      try solve [cbn; split; [lia | exact H]].
    destruct H as [H1 H2].
    destruct (IH {| phase := p; countdown := countdown q; phaseText := phaseText q;
                    startTime := startTime q; waiting := waiting q; rest := rest q |}
                H2) as [H3 H4].
    cbn in H3. split; [lia | exact H4].
Qed.

Lemma startSequence_ascending (r1 r2 : Q) :
  ascending 0 (startSequence config r1 r2).
Proof.
  unfold startSequence, playIfEnabled.
  destruct (audioEnabled config); cbn; repeat split; lia.
Qed.

Lemma ascending_step (s : App) (i : Input) :
  Forall (fun q => ascending (phase_rank (phase q)) (rest q)) (sequences s) ->
  Forall (fun q => ascending (phase_rank (phase q)) (rest q)) (sequences (Step s i)).
Proof.
  intros Hall.
  destruct (step_has_kind s i) as [es _ Hs _ | k q ops Hk Hops _ Hs _ | r1 r2 _ _ Hs _];
    rewrite Hs.
  - exact Hall.
  - apply Forall_insert; [exact Hall|].
    pose proof (Forall_lookup_1 _ _ _ _ Hall Hk) as H0.
    destruct Hops as [-> | ->]; [now apply stored_ascending | exact I].
  - apply Forall_app. split; [exact Hall|]. constructor; [|constructor].
    apply (stored_ascending (now s) (startSequence config r1 r2) (mounted config r1 r2)).
    apply startSequence_ascending.
Qed.

Lemma phase_step (s : App) (i : Input) (k : nat) (q : Sequence) :
  Forall (fun q => ascending (phase_rank (phase q)) (rest q)) (sequences s) ->
  sequences s !! k = Some q ->
  exists q', sequences (Step s i) !! k = Some q'
             /\ (phase_rank (phase q) <= phase_rank (phase q'))%nat.
Proof.
  intros Hall Hk.
  destruct (step_has_kind s i) as [es _ Hs _ | k' q0 ops Hk' Hops _ Hs _ | r1 r2 _ _ Hs _];
    rewrite Hs.
  - exists q. auto.
  - pose proof (Forall_lookup_1 _ _ _ _ Hall Hk') as H0.
    destruct (decide (k' = k)) as [-> | Hne].
    + exists (stored (now s) q0 ops).
      rewrite list_lookup_insert_eq by (apply lookup_lt_Some in Hk; exact Hk).
      split; [reflexivity|].
      assert (q0 = q) by congruence. subst q0.
      destruct Hops as [-> | ->]; [now apply stored_ascending | cbn; lia].
    + exists q. rewrite list_lookup_insert_ne by exact Hne. auto.
  - exists q. rewrite lookup_app_l by (apply lookup_lt_Some in Hk; exact Hk). auto.
Qed.

(** X12.  The phase of an invocation never goes back: whatever happens to the
    app, the invocation stays where it is among the invocations, in its
    phase or in a later one. *)
Theorem phase_never_goes_back (l more : list Input) (k : nat) (q : Sequence) :
  sequences (Run initial l) !! k = Some q ->
  exists q',
    sequences (Run initial (l ++ more)) !! k = Some q'
    /\ (phase_rank (phase q) <= phase_rank (phase q'))%nat.
Proof.
  intros Hk. rewrite run_app.
  assert (H0 : Forall (fun q => ascending (phase_rank (phase q)) (rest q))
                 (sequences (Run initial l))).
  { apply (run_invariant
             (fun s => Forall (fun q => ascending (phase_rank (phase q)) (rest q))
                         (sequences s))); [constructor | apply ascending_step]. }
  enough (H : Forall (fun q => ascending (phase_rank (phase q)) (rest q))
                (sequences (Run (Run initial l) more))
              /\ exists q', sequences (Run (Run initial l) more) !! k = Some q'
                   /\ (phase_rank (phase q) <= phase_rank (phase q'))%nat)
    by apply H.
  apply (run_invariant
           (fun s => Forall (fun q => ascending (phase_rank (phase q)) (rest q))
                       (sequences s)
                     /\ exists q', sequences s !! k = Some q'
                          /\ (phase_rank (phase q) <= phase_rank (phase q'))%nat)).
  - split; [exact H0|]. exists q. auto.
  - intros s i (Hall & q1 & Hq1 & Hle).
    destruct (phase_step s i k q1 Hall Hq1) as (q2 & Hq2 & Hle').
    split; [now apply ascending_step|]. exists q2. split; [exact Hq2 | lia].
Qed.

(** ** The calls of a session *)

Lemma stored_startTime (now : Q) (ops : list Op) :
  forall q : Sequence,
    startTime q = Some now -> startTime (stored now q ops) = Some now.
Proof.
  induction ops as [|op ops IH]; intros q Hq; [exact Hq|].
  destruct op; cbn [stored]; try exact Hq;
    try solve [match goal with
               | |- context [stored now ?q' ops] => apply (IH q'); exact Hq
               end].
  match goal with
  | |- context [stored now ?q' ops] => apply (IH q'); reflexivity
  end.
Qed.

Lemma all_calls_segment (now t : Q) (ops : list Op) :
  forall q : Sequence,
    (forall t', startTime (stored now q ops) = Some t' -> t' = t) ->
    all_calls t (startTime q) ops
    = emitted now (startTime q) ops
      ++ all_calls t (startTime (stored now q ops)) (rest (stored now q ops)).
Proof.
  induction ops as [|op ops IH]; intros q Hq; [reflexivity|].
  destruct op; cbn [stored all_calls emitted] in *;
    try reflexivity;
    try solve [match goal with
               | |- context [stored now ?q' ops] => apply (IH q'); exact Hq
               end].
  - (* readStartTime *)
    set (q' := {| phase := phase q; countdown := countdown q; phaseText := phaseText q;
                  startTime := Some now; waiting := waiting q; rest := rest q |}) in *.
    assert (Hnow : now = t).
    { apply Hq. apply stored_startTime. reflexivity. }
    subst t. cbn [app]. f_equal. apply (IH q'). exact Hq.
  - (* onComplete *)
    destruct (startTime q) as [t'|] eqn:Hst.
    + cbn [app]. f_equal. rewrite <- Hst. apply IH. exact Hq.
    + rewrite <- Hst. apply IH. exact Hq.
Qed.

Lemma all_calls_startSequence (r1 r2 t : Q) :
  all_calls t None (startSequence config r1 r2) = sessionCalls r1 r2 t.
Proof.
  unfold startSequence, playIfEnabled, sessionCalls.
  destruct (audioEnabled config); reflexivity.
Qed.

Lemma filter_all {A} (f : A -> bool) (l : list A) :
  Forall (fun x => f x = true) l -> List.filter f l = l.
Proof.
  induction 1 as [|x l Hx _ IH]; [reflexivity|]. cbn. now rewrite Hx, IH.
Qed.

Lemma filter_none {A} (f : A -> bool) (l : list A) :
  Forall (fun x => f x = false) l -> List.filter f l = [].
Proof.
  induction 1 as [|x l Hx _ IH]; [reflexivity|]. cbn. now rewrite Hx, IH.
Qed.

Lemma emitted_sequence_calls (t : Q) (ops : list Op) :
  forall st : option Q,
    List.filter is_sequence_call (emitted t st ops) = emitted t st ops.
Proof.
  intros st. apply filter_all. revert st.
  induction ops as [|op ops IH]; intros st; [constructor|].
  destruct op; cbn [emitted]; try destruct st; repeat constructor; auto.
Qed.

(** The trace after a step that adds the calls [es]. *)
Lemma sequence_calls_added (s s' : App) (es : list Event) :
  calls s' = rev es ++ calls s ->
  List.filter is_sequence_call (trace s')
  = List.filter is_sequence_call (trace s) ++ List.filter is_sequence_call es.
Proof.
  intros H. unfold trace. rewrite H, rev_app_distr, rev_involutive.
  apply List.filter_app.
Qed.
(** The number of results of [Math.random()] used, after a step. *)
Lemma step_randomCalls (s : App) (i : Input) :
  randomCalls (Step s i) =
  match i with
  | TapStartSequence => if canStart s then S (S (randomCalls s)) else randomCalls s
  | _ => randomCalls s
  end.
Proof.
  destruct s as [nw act rs tm cv sq rc cl].
  destruct i; unfold_step; cbn;
    repeat (break_match; rewrite ?exec_committed; cbn in * );
    try reflexivity; try congruence;
    destruct act, rs; cbn in *; congruence.
Qed.

(** The calls of an accepted start request. *)
Lemma start_request_calls (s : App) :
  canStart s = true ->
  calls (Step s TapStartSequence)
  = rev (CameraView.startRecording hasCameraRef hasDevice
         ++ emitted (now s) None
              (startSequence config (random (randomCalls s))
                 (random (S (randomCalls s)))))
    ++ calls s.
Proof.
  intros Hcan. cbn [step]. rewrite Hcan.
  unfold canStart in Hcan. apply andb_true_iff in Hcan as [Hidle Hact].
  apply RecordingState_eqb_eq in Hidle. apply negb_true_iff in Hact.
  unfold handleStartSequence, render, mountOverlay, isRecording.
  cbn [with_flags recordingState isSequenceActive now cameraView].
  rewrite Hidle, Hact.
  cbn [orb RecordingState_eqb Bool.eqb negb andb CameraView.recordingEffect].
  cbn [issued with_cameraView isSequenceActive negb andb].
  rewrite exec_committed.
  destruct s as [nw act rs tm cv sq rc cl].
  cbn -[stored emitted startSequence].
  rewrite rev_app_distr, <- app_assoc. reflexivity.
Qed.

Lemma no_mount_without_start_request (s : App) (i : Input) :
  i <> TapStartSequence ->
  recordingState s = idle -> recordingState (Step s i) <> recording.
Proof.
  intros Hi Hidle.
  pose proof (f_equal snd (step_flags s i)) as E. cbn [snd] in E.
  unfold canStop in E. rewrite Hidle in E.
  set (s' := Step s i) in *. clearbody s'.
  destruct i; try contradiction; cbn in E; rewrite E;
    try destruct (isSequenceActive s); cbn; congruence.
Qed.
Lemma stored_reads_once (now : Q) (ops : list Op) :
  forall q : Sequence,
    reads_once (hasRead q) ops ->
    (forall t', startTime q = Some t' -> startTime (stored now q ops) = Some t')
    /\ reads_once (hasRead (stored now q ops)) (rest (stored now q ops)).
Proof.
  induction ops as [|op ops IH]; intros q H.
  - cbn. auto.
  - destruct op; cbn [stored reads_once] in *;
      try solve [match goal with
                 | |- context [stored now ?q' ops] => apply (IH q'); exact H
                 end];
      try solve [cbn; auto].
    destruct H as [Hread H]. unfold hasRead in Hread.
    destruct (startTime q) eqn:Hst; [discriminate|].
    split; [discriminate|].
    match goal with
    | |- context [stored now ?q' ops] => apply (IH q'); exact H
    end.
Qed.

Lemma reads_once_startSequence (r1 r2 : Q) :
  reads_once false (startSequence config r1 r2).
Proof.
  unfold startSequence, playIfEnabled.
  destruct (audioEnabled config); cbn; auto.
Qed.

Lemma handlers_no_sequence_calls (es : list Event) :
  Forall (fun e => from_handlers e /\ e <> CameraStartRecording) es ->
  List.filter is_sequence_call es = [].
Proof.
  intros H. apply filter_none. eapply Forall_impl; [exact H|].
  intros e [He _]. destruct e; try contradiction; reflexivity.
Qed.

Lemma session_on_script_step (s : App) (i : Input) :
  i <> TapCancel ->
  started_at_most_once s ->
  randomCalls s = (2 * length (sequences s))%nat ->
  session_on_script s ->
  randomCalls (Step s i) = (2 * length (sequences (Step s i)))%nat
  /\ session_on_script (Step s i).
Proof.
  intros Hi [Hlen Hidle] Hrc Hscript.
  pose proof (step_randomCalls s i) as Erc.
  assert (Hdec : i = TapStartSequence \/ i <> TapStartSequence).
  { destruct i; (now left) || (right; discriminate). }
  destruct Hdec as [-> | Hstart].
  - destruct (canStart s) eqn:Hcan; [|cbn [step]; rewrite Hcan; auto].
    assert (Hnil : sequences s = []).
    { destruct (sequences s) eqn:E; [reflexivity|]. exfalso.
      apply Hidle; [discriminate|].
      unfold canStart in Hcan. apply andb_true_iff in Hcan as [Hcan _].
      now apply RecordingState_eqb_eq in Hcan. }
    rewrite Hnil in Hrc. cbn in Hrc.
    destruct (start_request_accepted s Hcan) as [_ Hseq].
    pose proof (start_request_calls s Hcan) as Hcalls.
    rewrite Hrc in Hseq, Hcalls. rewrite Hnil in Hseq. cbn [app] in Hseq.
    unfold session_on_script in *. rewrite Hnil in Hscript.
    rewrite Erc, Hseq, Hrc. split; [reflexivity|].
    set (prog := startSequence config (random 0) (random 1)) in *.
    set (q0 := mounted config (random 0) (random 1)) in *.
    split.
    { apply (stored_reads_once (now s) prog q0). apply reads_once_startSequence. }
    intros t Ht.
    exists (all_calls t (startTime (stored (now s) q0 prog)) (rest (stored (now s) q0 prog))).
    split; [|reflexivity].
    rewrite (sequence_calls_added s _ _ Hcalls), Hscript, List.filter_app.
    rewrite emitted_sequence_calls.
    assert (Hrec : List.filter is_sequence_call
                     (CameraView.startRecording hasCameraRef hasDevice) = []).
    { unfold CameraView.startRecording. destruct (_ || _); reflexivity. }
    rewrite Hrec. cbn [app].
    pose proof (all_calls_segment (now s) t prog q0 Ht) as Hseg.
    change (startTime q0) with (@None Q) in Hseg.
    rewrite <- Hseg. apply all_calls_startSequence.
  - assert (Erc' : randomCalls (Step s i) = randomCalls s).
    { rewrite Erc. destruct i; try reflexivity. contradiction. }
    rewrite Erc'.
    destruct (step_has_kind s i)
      as [es Hc Hs Hes | k q ops Hk Hops Hc Hs Hen | r1 r2 Hi0 _ _ Hrec].
    + rewrite Hs. split; [exact Hrc|].
      unfold session_on_script in *. rewrite Hs.
      rewrite (sequence_calls_added s _ es Hc), (handlers_no_sequence_calls es Hes),
        app_nil_r.
      exact Hscript.
    + rewrite Hs, length_insert. split; [exact Hrc|].
      destruct (sequences s) as [|q1 [|q2 qs]] eqn:E; cbn in Hlen; try lia;
        [discriminate|].
      destruct k as [|k]; [|discriminate]. injection Hk as ->.
      unfold session_on_script in *. rewrite Hs, E in *. cbn [insert list_insert].
      destruct Hscript as [Honce Hscript].
      assert (Hnew : (forall t', startTime q = Some t' ->
                        startTime (stored (now s) q ops) = Some t')
                     /\ reads_once (hasRead (stored (now s) q ops))
                          (rest (stored (now s) q ops))).
      { destruct Hops as [-> | ->]; [now apply stored_reads_once | cbn; auto]. }
      destruct Hnew as [Hkeep Honce'].
      split; [exact Honce'|].
      intros t Ht.
      assert (Ht0 : forall t', startTime q = Some t' -> t' = t).
      { intros t' H'. apply Ht. now apply Hkeep. }
      destruct (Hscript t Ht0) as (tail & Heq & Htail).
      assert (Hw : waiting q <> WEnd).
      { intros Hw. rewrite Hw in Hen. exact Hen. }
      specialize (Htail Hw). subst tail.
      rewrite (sequence_calls_added s _ _ Hc), emitted_sequence_calls.
      destruct Hops as [-> | ->].
      * exists (all_calls t (startTime (stored (now s) q (rest q)))
                 (rest (stored (now s) q (rest q)))).
        split; [|reflexivity].
        rewrite <- app_assoc, <- (all_calls_segment (now s) t (rest q) q Ht).
        exact Heq.
      * exists (all_calls t (startTime q) (rest q)).
        cbn [emitted]. rewrite app_nil_r. split; [exact Heq|].
        cbn. intros H. now contradiction H.
    + exfalso. apply (no_mount_without_start_request s i Hstart Hi0). exact Hrec.
Qed.
(** X13.  In an app run without a cancel, the calls that the start sequence
    makes are, in this order and each at most once: the three countdown
    timers of one second; the cue and the wait of the phases 'go to the
    start', 'in position' and 'set', the two last waits drawn at random; the
    reading of the clock and the beep; a timer of half a second; and the
    start time, as read, handed to the ledger.  The cues are left out when
    audio is disabled.  At any moment the calls made so far are a beginning
    of that list. *)
Theorem session_calls_in_order (l : list Input) :
  Forall (fun i => i <> TapCancel) l ->
  exists t tail,
    List.filter is_sequence_call (trace (Run initial l)) ++ tail
    = sessionCalls (random 0) (random 1) t.
Proof.
  intros Hl.
  assert (H : started_at_most_once (Run initial l)
              /\ randomCalls (Run initial l)
                 = (2 * length (sequences (Run initial l)))%nat
              /\ session_on_script (Run initial l)).
  { apply (run_invariant_on (fun i => i <> TapCancel)
             (fun s => started_at_most_once s
                       /\ randomCalls s = (2 * length (sequences s))%nat
                       /\ session_on_script s)); [| |exact Hl].
    - split; [split; [cbn; lia | intros H; now contradiction H]|].
      split; reflexivity.
    - intros s i Hi (H1 & H2 & H3). split; [now apply started_at_most_once_step|].
      now apply session_on_script_step. }
  destruct H as (_ & _ & H). unfold session_on_script in H.
  destruct (sequences (Run initial l)) as [|q qs].
  - exists 0, (sessionCalls (random 0) (random 1) 0). now rewrite H.
  - destruct H as [_ H].
    destruct (startTime q) as [t0|] eqn:Hst.
    + destruct (H t0) as (tail & Heq & _); [intros t' [= <-]; reflexivity|].
      exists t0, tail. exact Heq.
    + destruct (H 0) as (tail & Heq & _); [intros t' [=]|].
      exists 0, tail. exact Heq.
Qed.

(** ** The control panel *)

(** X14.  The buttons of the control panel in every state the app can reach:
    Start is enabled exactly in the state ['idle'] and Stop exactly in the
    state ['recording']; while a sequence is active Start is disabled and
    reads 'Starting...', and Stop is enabled; in the state ['finished']
    neither button is enabled. *)
Theorem control_panel_buttons (l : list Input) :
  let s := Run initial l in
  (canStart s = true <-> recordingState s = idle)
  /\ (canStop s = true <-> recordingState s = recording)
  /\ (isSequenceActive s = true ->
      canStart s = false /\ canStop s = true /\ startButtonText s = "Starting...")
  /\ (recordingState s = finished -> canStart s = false /\ canStop s = false).
Proof.
  intros s. pose proof (overlay_only_while_recording_run l) as Hov.
  fold s in Hov. clearbody s. unfold overlay_only_while_recording in Hov.
  unfold canStart, canStop, startButtonText.
  destruct (isSequenceActive s).
  - rewrite (Hov eq_refl). cbn. intuition discriminate.
  - destruct (recordingState s); cbn; intuition discriminate.
Qed.

(** ** The waits drawn at random *)


(** X16.  Whatever the configuration, with bounds in order and results of
    [Math.random()] that are not negative: the start time of a sequence is
    read no earlier than the three countdown seconds, the go-to-start wait
    and the two lower bounds after the start request that launched it. *)
Theorem start_not_before_shortest_waits (l1 l2 : list Input) (q : Sequence) (t : Q) :
  (forall n, 0 <= random n) ->
  inPositionMin config <= inPositionMax config ->
  setMin config <= setMax config ->
  let s1 := Run initial l1 in
  canStart s1 = true ->
  sequences (Run (Step s1 TapStartSequence) l2) !! length (sequences s1) = Some q ->
  startTime q = Some t ->
  now s1
  + (3 + goToStartDuration config + inPositionMin config + setMin config) * 1000
  <= t.
Proof.
  intros Hrandom Hin Hset s1 Hcan Hq Ht.
  pose proof (start_read_after_waits l1 l2 q t Hcan Hq Ht) as H.
  fold s1 in H.
  assert (Hlow : forall r min max, 0 <= r -> min <= max ->
                   min * 1000 <= randomDelay r min max).
  { intros r min max Hr Hm. unfold randomDelay.
    assert (0 <= r * (max - min)) by (apply Qmult_le_0_compat; lra). lra. }
  pose proof (Hlow _ _ _ (Hrandom (randomCalls s1)) Hin) as H1.
  pose proof (Hlow _ _ _ (Hrandom (S (randomCalls s1))) Hset) as H2.
  lra.
Qed.

(** ** The timing data of a recording *)

(** X17.  The timing data that [handleRecordingFinished] logs for a recording
    hold all frame timestamps of that recording, but the frame count and the
    measured rate are those of the render that started it: the counts left
    by the recording before, and 0 and 0 for the first recording of an app
    run, however many frames were processed. *)
Theorem timing_data_counts_are_stale (fps : Z) (l more : list Input)
    (callback : string -> TimingMarkers.t -> CameraView.State -> CameraView.TimingData.t)
    (videoPath : string) :
  let s := Run initial l in
  onRecordingFinished fps s TapStartSequence = Some callback ->
  let s' := Run (Step s TapStartSequence) more in
  let data := callback videoPath (timingMarkers s') (cameraView s') in
  CameraView.TimingData.frameTimestamps data = CameraView.frameTimestamps (cameraView s')
  /\ length (CameraView.TimingData.frameTimestamps data)
     = CameraView.frameCount (cameraView s')
  /\ CameraView.TimingData.frameCount data
     = length (CameraView.frameTimestamps (cameraView s))
  /\ CameraView.TimingData.measuredFps data = CameraView.actualFps (cameraView s)
  /\ (Forall (fun i => i <> TapStartSequence) l ->
      CameraView.TimingData.frameCount data = 0%nat
      /\ CameraView.TimingData.measuredFps data = Num 0).
Proof.
  intros s Hcb s' data.
  destruct (cameraView_kept_run l) as (Hcount & Hfps & _). fold s in Hcount, Hfps.
  assert (Hcount' : CameraView.frameCount (cameraView s')
                    = length (CameraView.frameTimestamps (cameraView s'))).
  { pose proof (cameraView_kept_run (l ++ [TapStartSequence] ++ more)) as (H & _).
    rewrite !run_app in H. exact H. }
  assert (Hfirst : Forall (fun i => i <> TapStartSequence) l ->
                   CameraView.frameTimestamps (cameraView s) = []).
  { intros Hl. apply (idle_without_start_request l Hl). }
  unfold onRecordingFinished in Hcb.
  set (sx := Step s TapStartSequence) in *. clearbody sx. clearbody s'. clearbody s.
  destruct (_ && _); [|discriminate]. injection Hcb as <-.
  subst data. unfold CameraView.handleRecordingFinished.
  cbn [CameraView.TimingData.frameTimestamps CameraView.TimingData.frameCount
       CameraView.TimingData.measuredFps].
  split; [reflexivity|]. split; [now rewrite Hcount'|].
  split; [exact Hcount|]. split; [reflexivity|].
  intros Hl. rewrite (Hfirst Hl) in *. cbn [length] in *.
  split; [exact Hcount | apply Hfps; lia].
Qed.

(** ** A cue that fails *)

Lemma ended_invocation_step (s : App) (i : Input) (k : nat) (q : Sequence) :
  sequences s !! k = Some q -> waiting q = WEnd ->
  sequences (Step s i) !! k = Some q.
Proof.
  intros Hk Hw.
  destruct (step_has_kind s i) as [es _ Hs _ | k' q0 ops Hk' _ _ Hs Hen | r1 r2 _ _ Hs _];
    rewrite Hs.
  - exact Hk.
  - destruct (decide (k' = k)) as [-> | Hne].
    + assert (q0 = q) by congruence. subst q0. rewrite Hw in Hen. contradiction.
    + now rewrite list_lookup_insert_ne.
  - rewrite lookup_app_l; [exact Hk|]. now apply lookup_lt_Some in Hk.
Qed.

(** X18.  When the promise of a cue is rejected, the invocation of
    [startSequence] that awaits it is over, and nothing tells: no call is
    made and the two state hooks of the app stay as they are, so the
    overlay stays on the screen; and whatever happens next, the invocation
    stays in the phase it was in, with the start time it had. *)
Theorem failed_cue_ends_the_sequence (l more : list Input) (k : nat) (q : Sequence)
    (name : string) :
  let s := Run initial l in
  sequences s !! k = Some q ->
  waiting q = WAudio name ->
  let s' := Step s (AudioRejects k) in
  calls s' = calls s
  /\ recordingState s' = recordingState s
  /\ isSequenceActive s' = isSequenceActive s
  /\ exists q',
       sequences (Run s' more) !! k = Some q'
       /\ phase q' = phase q /\ startTime q' = startTime q /\ waiting q' = WEnd.
Proof.
  intros s Hk Hw s'. clearbody s.
  assert (Es' : s' = with_sequences
                       (<[k := {| phase := phase q; countdown := countdown q;
                                  phaseText := phaseText q; startTime := startTime q;
                                  waiting := WEnd; rest := [] |}]> (sequences s)) s).
  { subst s'. cbn [step]. unfold audioRejects. rewrite Hk, Hw. reflexivity. }
  clearbody s'. subst s'. cbn [with_sequences calls recordingState isSequenceActive].
  split; [reflexivity|]. split; [reflexivity|]. split; [reflexivity|].
  set (qe := {| phase := phase q; countdown := countdown q;
                phaseText := phaseText q; startTime := startTime q;
                waiting := WEnd; rest := [] |}).
  exists qe. split; [|auto].
  apply (run_invariant (fun s0 => sequences s0 !! k = Some qe)).
  - cbn [with_sequences sequences].
    apply list_lookup_insert_eq. now apply lookup_lt_Some in Hk.
  - intros s0 i H0. now apply ended_invocation_step.
Qed.

(** ** Sequences that run on *)

Lemma same_sequences_served (s1 s2 : App) (i : Input) :
  serves_sequences i ->
  same_sequences s1 s2 -> same_sequences (Step s1 i) (Step s2 i).
Proof.
  unfold same_sequences. intros Hi (Hseq & Hnow & Hcalls).
  assert (Hexec : forall k q ops,
            same_sequences (exec k q ops s1) (exec k q ops s2)).
  { intros k q ops. rewrite !exec_committed. unfold same_sequences.
    split; [cbn [committed sequences]; now rewrite Hseq, Hnow|].
    split; [exact Hnow|].
    rewrite (sequence_calls_added s1 (committed k _ _ s1)
               (emitted (now s1) (startTime q) ops) eq_refl),
      (sequence_calls_added s2 (committed k _ _ s2)
         (emitted (now s2) (startTime q) ops) eq_refl),
      Hcalls, Hnow.
    reflexivity. }
  destruct i; try contradiction; cbn [step].
  - cbn [with_now sequences now]. rewrite Hnow. auto.
  - unfold timerFires. rewrite Hseq, Hnow.
    destruct (sequences s2 !! k) as [q|]; [|auto].
    destruct (waiting q); auto. destruct (Qle_bool _ _); [apply Hexec | auto].
  - unfold audioResolves. rewrite Hseq.
    destruct (sequences s2 !! k) as [q|]; [|auto].
    destruct (waiting q); auto. apply Hexec.
  - unfold audioRejects. rewrite Hseq.
    destruct (sequences s2 !! k) as [q|]; [|auto].
    destruct (waiting q); auto. apply Hexec.
Qed.

Lemma tap_leaves_sequences (s : App) (i : Input) :
  i = TapCancel \/ i = TapStopRecording -> same_sequences (Step s i) s.
Proof.
  assert (Hnone : same_sequences s s) by (repeat split).
  intros [-> | ->]; cbn [step].
  - destruct (isSequenceActive s) eqn:Hact; [|exact Hnone]. clear Hnone.
    unfold handleSequenceCancelled, render, isRecording, CameraView.recordingEffect,
      CameraView.stopRecording.
    destruct s as [nw act rs tm cv sq rc cl]; cbn in *. subst.
    destruct rs; cbn; try solve [repeat split].
    destruct (truthy _); [destruct hasCameraRef|]; cbn;
      unfold same_sequences, trace; cbn;
      rewrite ?List.filter_app; cbn; rewrite ?app_nil_r; repeat split.
  - destruct (canStop s) eqn:Hcan; [|exact Hnone]. clear Hnone.
    unfold canStop in Hcan. apply RecordingState_eqb_eq in Hcan.
    unfold handleStopRecording, render, isRecording, CameraView.recordingEffect,
      CameraView.stopRecording.
    destruct s as [nw act rs tm cv sq rc cl]; cbn in *. subst. cbn.
    destruct (truthy _); [destruct hasCameraRef|]; cbn; rewrite ?andb_false_r;
      unfold same_sequences, trace; cbn;
      rewrite ?List.filter_app; cbn; rewrite ?app_nil_r; repeat split.
Qed.

(** X19.  Neither Cancel nor Stop stops a sequence.  Tapping either leaves every
    invocation of [startSequence] as it is, and from then on the timers and
    the cues take the invocations through the same states and the same
    calls as if nothing had been tapped. *)
Theorem cancelled_sequence_runs_on (s : App) (i : Input) (more : list Input) :
  i = TapCancel \/ i = TapStopRecording ->
  Forall serves_sequences more ->
  sequences (Run (Step s i) more) = sequences (Run s more)
  /\ List.filter is_sequence_call (trace (Run (Step s i) more))
     = List.filter is_sequence_call (trace (Run s more)).
Proof.
  intros Hi Hmore.
  enough (H : same_sequences (Run (Step s i) more) (Run s more)).
  { destruct H as (H1 & _ & H2). auto. }
  pose proof (tap_leaves_sequences s i Hi) as H0.
  set (s1 := Step s i) in *. clearbody s1.
  revert s1 s H0. induction Hmore as [|j more Hj _ IH]; intros s1 s H0; [exact H0|].
  cbn [Run foldl]. apply IH. now apply same_sequences_served.
Qed.

(** ** The overlay on the screen *)

(** X20.  Only Stop and Cancel take the overlay away.  Once a start request is
    accepted, the overlay stays mounted and the state stays ['recording']
    whatever the sequence does, also after it has completed or a cue has
    failed, until one of the two is tapped. *)
Theorem overlay_stays_until_stop_or_cancel (l more : list Input) :
  canStart (Run initial l) = true ->
  Forall (fun i => i <> TapCancel /\ i <> TapStopRecording) more ->
  let s := Run (Step (Run initial l) TapStartSequence) more in
  isSequenceActive s = true /\ recordingState s = recording.
Proof.
  intros Hcan Hmore.
  apply (run_invariant_on (fun i => i <> TapCancel /\ i <> TapStopRecording)
           (fun s => isSequenceActive s = true /\ recordingState s = recording));
    [| |exact Hmore].
  - pose proof (step_flags (Run initial l) TapStartSequence) as E.
    set (s1 := Step (Run initial l) TapStartSequence) in *. clearbody s1.
    cbn in E. rewrite Hcan in E. injection E as -> ->. auto.
  - intros s i [Hi1 Hi2] [H1 H2].
    pose proof (step_flags s i) as E. unfold canStart in E. rewrite H1, H2 in E.
    set (s' := Step s i) in *. clearbody s'.
    destruct i; try contradiction; cbn in E; injection E as -> ->; auto.
Qed.

(** ** Texts on the screen *)

(** Padding to two places gives the two digits of a number below 100. *)
Lemma padStart_two_digits (n : Z) :
  (0 <= n < 100)%Z -> padStart 2 "0"%char (toString n) = two_digits n.
Proof.
  intros Hn.
  assert (Hall : forallb (fun k => String.eqb (padStart 2 "0"%char (toString (Z.of_nat k)))
                                     (two_digits (Z.of_nat k)))
                   (seq 0 100) = true) by (vm_compute; reflexivity).
  rewrite forallb_forall in Hall.
  specialize (Hall (Z.to_nat n)). rewrite Z2Nat.id in Hall by lia.
  apply String.eqb_eq, Hall, in_seq. lia.
Qed.

Lemma Qtruncate_nonneg (x : Q) : 0 <= x -> Qtruncate x = Qfloor x.
Proof.
  intros H. unfold Qtruncate.
  destruct (Qle_bool 0 x) eqn:E; [reflexivity|].
  apply Qle_bool_iff in H. congruence.
Qed.

Lemma Qfloor_spec (x : Q) (n : Z) :
  inject_Z n <= x -> x < inject_Z n + 1 -> Qfloor x = n.
Proof.
  intros H1 H2.
  pose proof (Qfloor_le x) as H3. pose proof (Qlt_floor x) as H4.
  assert (H5 : inject_Z n < inject_Z (Qfloor x + 1)) by lra.
  assert (H6 : inject_Z (Qfloor x) < inject_Z (n + 1)).
  { rewrite inject_Z_plus. change (inject_Z 1) with 1. lra. }
  rewrite <- Zlt_Qlt in H5, H6. lia.
Qed.

(** The whole seconds and the centiseconds of a time that is not negative. *)
Lemma seconds_and_centiseconds (ms : Q) :
  0 <= ms ->
  let T := Qfloor (ms / 1000) in
  let c := Qfloor (js_rem ms 1000 / 10) in
  (0 <= T)%Z /\ (0 <= c < 100)%Z
  /\ inject_Z (1000 * T + 10 * c) <= ms < inject_Z (1000 * T + 10 * c) + 10.
Proof.
  intros Hms T c.
  assert (Hdiv : 0 <= ms / 1000).
  { apply Qle_shift_div_l; lra. }
  pose proof (Qfloor_le (ms / 1000)) as H1. pose proof (Qlt_floor (ms / 1000)) as H2.
  fold T in H1, H2. rewrite inject_Z_plus in H2. change (inject_Z 1) with 1 in H2.
  assert (HT : (0 <= T)%Z).
  { apply (Qfloor_resp_le 0) in Hdiv. exact Hdiv. }
  assert (H3 : inject_Z T * 1000 <= ms).
  { apply (Qmult_le_r _ _ 1000) in H1; [|lra]. field_simplify (ms / 1000 * 1000) in H1. lra. }
  assert (H4 : ms < (inject_Z T + 1) * 1000).
  { apply (Qmult_lt_r _ _ 1000) in H2; [|lra]. field_simplify (ms / 1000 * 1000) in H2. lra. }
  assert (Hrem : js_rem ms 1000 == ms - 1000 * inject_Z T).
  { unfold js_rem. rewrite Qtruncate_nonneg by exact Hdiv. reflexivity. }
  set (r := js_rem ms 1000) in *.
  pose proof (Qfloor_le (r / 10)) as H5. pose proof (Qlt_floor (r / 10)) as H6.
  fold c in H5, H6. rewrite inject_Z_plus in H6. change (inject_Z 1) with 1 in H6.
  apply (Qmult_le_r _ _ 10) in H5; [|lra]. field_simplify (r / 10 * 10) in H5.
  apply (Qmult_lt_r _ _ 10) in H6; [|lra]. field_simplify (r / 10 * 10) in H6.
  assert (Hc : (0 <= c < 100)%Z).
  { split.
    - assert (H7 : inject_Z (-1) < inject_Z c).
      { cbn [inject_Z]. assert (0 <= r) by lra. 
        assert (inject_Z (-1) == -1) by reflexivity. lra. }
      rewrite <- Zlt_Qlt in H7. lia.
    - assert (H7 : inject_Z c < inject_Z 100).
      { assert (inject_Z 100 == 100) by reflexivity. lra. }
      rewrite <- Zlt_Qlt in H7. exact H7. }
  split; [exact HT|]. split; [exact Hc|].
  rewrite inject_Z_plus, !inject_Z_mult.
  change (inject_Z 1000) with 1000. change (inject_Z 10) with 10.
  clearbody T r c. split; lra.
Qed.

(** X21.  The elapsed time of the status panel, for a time of less than 100
    minutes that is not negative, is [MM:SS.cc]: two digits each of minutes,
    of seconds below 60 and of centiseconds, which together are the time
    cut down, never rounded up, to a whole centisecond. *)
Theorem StatusPanel_formatElapsedTime_truncates (ms : Q) :
  0 <= ms -> ms < 6000000 ->
  exists m s c : Z,
    (0 <= m < 100)%Z /\ (0 <= s < 60)%Z /\ (0 <= c < 100)%Z
    /\ inject_Z (60000 * m + 1000 * s + 10 * c) <= ms
       < inject_Z (60000 * m + 1000 * s + 10 * c) + 10
    /\ StatusPanel.formatElapsedTime ms
       = two_digits m +:+ ":" +:+ two_digits s +:+ "." +:+ two_digits c.
Proof.
  intros Hms Hlt.
  destruct (seconds_and_centiseconds ms Hms) as (HT & Hc & Hle).
  unfold StatusPanel.formatElapsedTime.
  set (T := Qfloor (ms / 1000)) in *.
  set (c := Qfloor (js_rem ms 1000 / 10)) in *.
  change (inject_Z T / 60) with (inject_Z T / inject_Z 60).
  rewrite <- Zdiv_Qdiv.
  assert (HT' : (T < 6000)%Z).
  { assert (H : inject_Z T < inject_Z 6000).
    { rewrite inject_Z_plus, !inject_Z_mult in Hle.
      change (inject_Z 1000) with 1000 in Hle. change (inject_Z 10) with 10 in Hle.
      change (inject_Z 6000) with 6000.
      assert (0 <= inject_Z c) by (change 0 with (inject_Z 0); rewrite <- Zle_Qle; lia).
      clearbody T c. lra. }
    now rewrite <- Zlt_Qlt in H. }
  rewrite Z.rem_mod_nonneg by lia.
  exists (T / 60)%Z, (T mod 60)%Z, c.
  assert (Hm : (0 <= T / 60 < 100)%Z).
  { split; [apply Z.div_pos; lia | apply Z.div_lt_upper_bound; lia]. }
  assert (Hs : (0 <= T mod 60 < 60)%Z) by (apply Z.mod_pos_bound; lia).
  split; [exact Hm|]. split; [exact Hs|]. split; [exact Hc|].
  split.
  - replace (60000 * (T / 60) + 1000 * (T mod 60) + 10 * c)%Z
      with (1000 * T + 10 * c)%Z; [exact Hle|].
    rewrite (Z.div_mod T 60) at 1 by lia. ring.
  - rewrite !padStart_two_digits by lia. reflexivity.
Qed.

(** X22.  The elapsed time of the recording overlay, for a time of less than 100
    seconds that is not negative, is [SS.ccs]: two digits each of seconds
    and of centiseconds, which together are the time cut down to a whole
    centisecond; the seconds are not wrapped at 60. *)
Theorem RecordingOverlay_formatElapsedTime_truncates (ms : Q) :
  0 <= ms -> ms < 100000 ->
  exists s c : Z,
    (0 <= s < 100)%Z /\ (0 <= c < 100)%Z
    /\ inject_Z (1000 * s + 10 * c) <= ms < inject_Z (1000 * s + 10 * c) + 10
    /\ RecordingOverlay.formatElapsedTime ms
       = two_digits s +:+ "." +:+ two_digits c +:+ "s".
Proof.
  intros Hms Hlt.
  destruct (seconds_and_centiseconds ms Hms) as (HT & Hc & Hle).
  unfold RecordingOverlay.formatElapsedTime.
  set (T := Qfloor (ms / 1000)) in *.
  set (c := Qfloor (js_rem ms 1000 / 10)) in *.
  assert (HT' : (T < 100)%Z).
  { assert (H : inject_Z T < inject_Z 100).
    { rewrite inject_Z_plus, !inject_Z_mult in Hle.
      change (inject_Z 1000) with 1000 in Hle. change (inject_Z 10) with 10 in Hle.
      change (inject_Z 100) with 100.
      assert (0 <= inject_Z c) by (change 0 with (inject_Z 0); rewrite <- Zle_Qle; lia).
      clearbody T c. lra. }
    now rewrite <- Zlt_Qlt in H. }
  exists T, c. split; [lia|]. split; [exact Hc|]. split; [exact Hle|].
  rewrite !padStart_two_digits by lia. reflexivity.
Qed.

(** The ratio of the measured rate to a positive target is at least a
    share exactly when the measured rate is at least that share of the
    target. *)
Lemma js_ge_ratio (measuredFps : JsNum) (targetFps share : Q) :
  0 < targetFps ->
  js_ge (js_div_num measuredFps targetFps) share = true
  <-> at_least measuredFps (share * targetFps).
Proof.
  intros Hpos.
  assert (Hz : Qeq_bool targetFps 0 = false).
  { destruct (Qeq_bool targetFps 0) eqn:E; [|reflexivity].
    apply Qeq_bool_iff in E. lra. }
  assert (Hle : Qle_bool 0 targetFps = true) by (apply Qle_bool_iff; lra).
  destruct measuredFps as [m| | |]; cbn [js_div_num at_least]; unfold js_div;
    rewrite ?Hz, ?Hle; cbn [js_ge]; try tauto; try (split; [discriminate | contradiction]).
  rewrite Qle_bool_iff. apply Qle_div_iff. exact Hpos.
Qed.


(** X24.  For a positive target, the frame-rate display of every recording is
    red until 30 frame timestamps are held: until then the rate published
    is 0. *)
Theorem fps_display_red_before_30_frames (l : list Input) (targetFps : Q) :
  0 < targetFps ->
  let cv := cameraView (Run initial l) in
  (length (CameraView.frameTimestamps cv) < 30)%nat ->
  CameraView.actualFps cv = Num 0
  /\ RecordingOverlay.getFpsColor (CameraView.actualFps cv) targetFps = "#f44336".
Proof.
  intros Hpos cv Hlen.
  destruct (cameraView_kept_run l) as (_ & Hfps & _).
  fold cv in Hfps. specialize (Hfps Hlen). rewrite Hfps. split; [reflexivity|].
  unfold RecordingOverlay.getFpsColor. cbv zeta.
  destruct (js_ge _ 0.9) eqn:E9;
    [apply (js_ge_ratio (Num 0) targetFps 0.9 Hpos) in E9; cbn in E9; lra|].
  destruct (js_ge _ 0.7) eqn:E7;
    [apply (js_ge_ratio (Num 0) targetFps 0.7 Hpos) in E7; cbn in E7; lra|].
  reflexivity.
Qed.

End Facts.

(** ** Scenario A *)


(** ** The theorems at work on concrete runs *)

Lemma finished_is_final_witness :
  let go := run defaultStartSequenceConfig true true scenario_random initial in
  recordingState
    (go ([ClockReaches 1000; TapStartSequence; ClockReaches 5000; TapStopRecording]
         ++ [TapStartSequence; TapCancel; ClockReaches 6000; TimerFires 0]))
  = finished
  /\ canStart
       (go ([ClockReaches 1000; TapStartSequence; ClockReaches 5000; TapStopRecording]
            ++ [TapStartSequence; TapCancel; ClockReaches 6000; TimerFires 0]))
     = false.
Proof.
  apply (finished_is_final defaultStartSequenceConfig true true scenario_random
           [ClockReaches 1000; TapStartSequence; ClockReaches 5000; TapStopRecording]
           [TapStartSequence; TapCancel; ClockReaches 6000; TimerFires 0]).
  reflexivity.
Defined.




(** ** The further properties at work on concrete inputs *)

Lemma findBestFormat_prefers_1080p_240_witness :
  let f w h r := {| CameraContext.videoWidth := w; CameraContext.videoHeight := h;
                    CameraContext.maxFps := r |} in
  let fs := [f 1280 720 240; f 1920 1080 120; f 1920 1080 240; f 3840 2160 120]%Z in
  exists g,
    CameraContext.findBestFormat {| CameraContext.formats := Some fs |} 120 = Some g
    /\ In g fs
    /\ CameraContext.videoWidth g = 1920%Z /\ CameraContext.videoHeight g = 1080%Z
    /\ (CameraContext.maxFps (f 1920 1080 240)%Z <= CameraContext.maxFps g)%Z.
Proof.
  cbv zeta.
  apply (findBestFormat_prefers_1080p_240
           {| CameraContext.formats :=
                Some [{| CameraContext.videoWidth := 1280; CameraContext.videoHeight := 720;
                         CameraContext.maxFps := 240 |};
                      {| CameraContext.videoWidth := 1920; CameraContext.videoHeight := 1080;
                         CameraContext.maxFps := 120 |};
                      {| CameraContext.videoWidth := 1920; CameraContext.videoHeight := 1080;
                         CameraContext.maxFps := 240 |};
                      {| CameraContext.videoWidth := 3840; CameraContext.videoHeight := 2160;
                         CameraContext.maxFps := 120 |}]%Z |}
           120%Z _
           {| CameraContext.videoWidth := 1920; CameraContext.videoHeight := 1080;
              CameraContext.maxFps := 240 |}%Z);
    [reflexivity | simpl; tauto | reflexivity | reflexivity | simpl; lia | simpl; lia].
Defined.


Lemma frames_recorded_exactly_while_recording_witness :
  let s := run defaultStartSequenceConfig true true scenario_random initial
             (ClockReaches 1000 :: [TapStartSequence; ClockReaches 1010]) in
  (recordingState s = recording ->
   exists t0,
     CameraView.recordingStartTime (cameraView s) = Some t0
     /\ 0 < t0 /\ t0 <= now s
     /\ CameraView.frameTimestamps
          (cameraView (step defaultStartSequenceConfig true true scenario_random s
                         FrameArrives))
        = CameraView.frameTimestamps (cameraView s) ++ [now s - t0])
  /\ (recordingState s <> recording ->
      CameraView.recordingStartTime (cameraView s) = None
      /\ step defaultStartSequenceConfig true true scenario_random s FrameArrives = s).
Proof.
  apply (frames_recorded_exactly_while_recording defaultStartSequenceConfig true true
           scenario_random 1000 [TapStartSequence; ClockReaches 1010]).
  reflexivity.
Defined.


Lemma overlay_shows_text_of_phase_witness :
  let q := {| phase := SequencePhase.completed; countdown := 1; phaseText := "GO!";
              startTime := Some 12500; waiting := WEnd; rest := [] |} in
  In (getDisplayText q) (texts_of_phase (phase q))
  /\ getDisplayText q <> "Get Ready".
Proof.
  apply (overlay_shows_text_of_phase defaultStartSequenceConfig true true scenario_random
           whole_session 0
           {| phase := SequencePhase.completed; countdown := 1; phaseText := "GO!";
              startTime := Some 12500; waiting := WEnd; rest := [] |}).
  reflexivity.
Defined.

Lemma start_time_read_on_entering_start_witness :
  let q := {| phase := SequencePhase.completed; countdown := 1; phaseText := "GO!";
              startTime := Some 12500; waiting := WEnd; rest := [] |} in
  is_Some (startTime q) <->
  phase q = SequencePhase.start \/ phase q = SequencePhase.completed.
Proof.
  apply (start_time_read_on_entering_start defaultStartSequenceConfig true true
           scenario_random whole_session 0
           {| phase := SequencePhase.completed; countdown := 1; phaseText := "GO!";
              startTime := Some 12500; waiting := WEnd; rest := [] |}).
  reflexivity.
Defined.

Lemma phase_never_goes_back_witness :
  exists q',
    sequences (run defaultStartSequenceConfig true true scenario_random initial
                 (whole_session ++ [ClockReaches 14000; TapStopRecording]))
    !! 0%nat = Some q'
    /\ (phase_rank SequencePhase.completed <= phase_rank (phase q'))%nat.
Proof.
  apply (phase_never_goes_back defaultStartSequenceConfig true true scenario_random
           whole_session [ClockReaches 14000; TapStopRecording] 0
           {| phase := SequencePhase.completed; countdown := 1; phaseText := "GO!";
              startTime := Some 12500; waiting := WEnd; rest := [] |}).
  reflexivity.
Defined.

Lemma session_calls_in_order_witness :
  exists t tail,
    List.filter is_sequence_call
      (trace (run defaultStartSequenceConfig true true scenario_random initial
                whole_session))
    ++ tail
    = sessionCalls defaultStartSequenceConfig (scenario_random 0) (scenario_random 1) t.
Proof.
  apply (session_calls_in_order defaultStartSequenceConfig true true scenario_random
           whole_session).
  unfold whole_session. repeat (constructor; [discriminate|]). constructor.
Defined.


Lemma start_not_before_shortest_waits_witness :
  now (run defaultStartSequenceConfig true true scenario_random initial
         [ClockReaches 1000])
  + (3 + goToStartDuration defaultStartSequenceConfig
     + inPositionMin defaultStartSequenceConfig + setMin defaultStartSequenceConfig)
    * 1000
  <= 12500.
Proof.
  apply (start_not_before_shortest_waits defaultStartSequenceConfig true true
           scenario_random [ClockReaches 1000]
           [ClockReaches 2000; TimerFires 0; ClockReaches 3000; TimerFires 0;
            ClockReaches 4000; TimerFires 0;
            AudioResolves 0; ClockReaches 9000; TimerFires 0;
            AudioResolves 0; ClockReaches 11000; TimerFires 0;
            AudioResolves 0; ClockReaches 12500; TimerFires 0;
            AudioResolves 0; ClockReaches 13000; TimerFires 0]
           {| phase := SequencePhase.completed; countdown := 1; phaseText := "GO!";
              startTime := Some 12500; waiting := WEnd; rest := [] |}
           12500).
  - intros [|[|n]]; discriminate.
  - discriminate.
  - discriminate.
  - reflexivity.
  - reflexivity.
  - reflexivity.
Defined.

Lemma StatusPanel_formatElapsedTime_truncates_witness :
  exists m s c : Z,
    (0 <= m < 100)%Z /\ (0 <= s < 60)%Z /\ (0 <= c < 100)%Z
    /\ inject_Z (60000 * m + 1000 * s + 10 * c) <= 83456.7
       < inject_Z (60000 * m + 1000 * s + 10 * c) + 10
    /\ StatusPanel.formatElapsedTime 83456.7
       = two_digits m +:+ ":" +:+ two_digits s +:+ "." +:+ two_digits c.
Proof.
  apply (StatusPanel_formatElapsedTime_truncates 83456.7); [discriminate | reflexivity].
Defined.

Lemma RecordingOverlay_formatElapsedTime_truncates_witness :
  exists s c : Z,
    (0 <= s < 100)%Z /\ (0 <= c < 100)%Z
    /\ inject_Z (1000 * s + 10 * c) <= 83456.7 < inject_Z (1000 * s + 10 * c) + 10
    /\ RecordingOverlay.formatElapsedTime 83456.7
       = two_digits s +:+ "." +:+ two_digits c +:+ "s".
Proof.
  apply (RecordingOverlay_formatElapsedTime_truncates 83456.7);
    [discriminate | reflexivity].
Defined.


Lemma fps_display_red_before_30_frames_witness :
  let cv := cameraView (run defaultStartSequenceConfig true true scenario_random
                          initial
                          [ClockReaches 1000; TapStartSequence; ClockReaches 1010;
                           FrameArrives]) in
  CameraView.actualFps cv = Num 0
  /\ RecordingOverlay.getFpsColor (CameraView.actualFps cv) 240 = "#f44336".
Proof.
  apply (fps_display_red_before_30_frames defaultStartSequenceConfig true true
           scenario_random
           [ClockReaches 1000; TapStartSequence; ClockReaches 1010; FrameArrives] 240);
    [reflexivity | vm_compute; lia].
Defined.

Lemma timing_data_counts_are_stale_witness :
  let go := run defaultStartSequenceConfig true true scenario_random in
  let Step := step defaultStartSequenceConfig true true scenario_random in
  let s := go initial [ClockReaches 1000] in
  let s' := go (Step s TapStartSequence) [ClockReaches 1010; FrameArrives] in
  let data :=
    CameraView.handleRecordingFinished (cameraView s) 240 "video.mp4"
      (timingMarkers s') (cameraView s') in
  CameraView.TimingData.frameTimestamps data = CameraView.frameTimestamps (cameraView s')
  /\ length (CameraView.TimingData.frameTimestamps data)
     = CameraView.frameCount (cameraView s')
  /\ CameraView.TimingData.frameCount data
     = length (CameraView.frameTimestamps (cameraView s))
  /\ CameraView.TimingData.measuredFps data = CameraView.actualFps (cameraView s)
  /\ (Forall (fun i => i <> TapStartSequence) [ClockReaches 1000] ->
      CameraView.TimingData.frameCount data = 0%nat
      /\ CameraView.TimingData.measuredFps data = Num 0).
Proof.
  apply (timing_data_counts_are_stale defaultStartSequenceConfig true true
           scenario_random 240 [ClockReaches 1000] [ClockReaches 1010; FrameArrives]
           (CameraView.handleRecordingFinished
              (cameraView (run defaultStartSequenceConfig true true scenario_random
                             initial [ClockReaches 1000])) 240)
           "video.mp4").
  reflexivity.
Defined.

Lemma failed_cue_ends_the_sequence_witness :
  let go := run defaultStartSequenceConfig true true scenario_random in
  let l := [ClockReaches 1000; TapStartSequence;
            ClockReaches 2000; TimerFires 0; ClockReaches 3000; TimerFires 0;
            ClockReaches 4000; TimerFires 0;
            AudioResolves 0; ClockReaches 9000; TimerFires 0;
            AudioResolves 0; ClockReaches 11000; TimerFires 0;
            AudioResolves 0; ClockReaches 12500; TimerFires 0] in
  let s := go initial l in
  let s' := step defaultStartSequenceConfig true true scenario_random s
              (AudioRejects 0) in
  calls s' = calls s
  /\ recordingState s' = recordingState s
  /\ isSequenceActive s' = isSequenceActive s
  /\ exists q',
       sequences (go s' [ClockReaches 13000; TimerFires 0]) !! 0%nat = Some q'
       /\ phase q' = SequencePhase.start /\ startTime q' = Some 12500
       /\ waiting q' = WEnd.
Proof.
  apply (failed_cue_ends_the_sequence defaultStartSequenceConfig true true
           scenario_random
           [ClockReaches 1000; TapStartSequence;
            ClockReaches 2000; TimerFires 0; ClockReaches 3000; TimerFires 0;
            ClockReaches 4000; TimerFires 0;
            AudioResolves 0; ClockReaches 9000; TimerFires 0;
            AudioResolves 0; ClockReaches 11000; TimerFires 0;
            AudioResolves 0; ClockReaches 12500; TimerFires 0]
           [ClockReaches 13000; TimerFires 0] 0
           {| phase := SequencePhase.start; countdown := 1; phaseText := "GO!";
              startTime := Some 12500; waiting := WAudio "start_beep";
              rest := [animateScale; setTimeoutThen 500;
                       setPhase SequencePhase.completed; onComplete] |}
           "start_beep");
    reflexivity.
Defined.

Lemma cancelled_sequence_runs_on_witness :
  let go := run defaultStartSequenceConfig true true scenario_random in
  let s := go initial until_in_position in
  let s' := step defaultStartSequenceConfig true true scenario_random s TapCancel in
  sequences (go s' after_the_cancel) = sequences (go s after_the_cancel)
  /\ List.filter is_sequence_call (trace (go s' after_the_cancel))
     = List.filter is_sequence_call (trace (go s after_the_cancel)).
Proof.
  apply (cancelled_sequence_runs_on defaultStartSequenceConfig true true scenario_random
           (run defaultStartSequenceConfig true true scenario_random initial
              until_in_position)
           TapCancel after_the_cancel).
  - left. reflexivity.
  - unfold after_the_cancel. repeat constructor.
Defined.

Lemma overlay_stays_until_stop_or_cancel_witness :
  let go := run defaultStartSequenceConfig true true scenario_random in
  let s := go (step defaultStartSequenceConfig true true scenario_random
                 (go initial [ClockReaches 1000]) TapStartSequence)
              [ClockReaches 2000; TimerFires 0; ClockReaches 3000; TimerFires 0;
               ClockReaches 4000; TimerFires 0; AudioRejects 0; TapStartSequence] in
  isSequenceActive s = true /\ recordingState s = recording.
Proof.
  apply (overlay_stays_until_stop_or_cancel defaultStartSequenceConfig true true
           scenario_random [ClockReaches 1000]
           [ClockReaches 2000; TimerFires 0; ClockReaches 3000; TimerFires 0;
            ClockReaches 4000; TimerFires 0; AudioRejects 0; TapStartSequence]).
  - reflexivity.
  - repeat (constructor; [split; discriminate|]). constructor.
Defined.
